(** * FarmConnect: row-level security and integrity constraints

    A shallow embedding of the PostgreSQL schema of the marketplace and of
    the queries its pages send: the tables of the four migrations
    ([user_profiles]; [product_categories] and [products]; [orders],
    [order_items] and [reviews]; [messages], [educational_resources] and
    [resource_bookmarks]), their CHECK / UNIQUE / FOREIGN KEY constraints
    and their row-level security policies, and the loading functions of the
    Products, Resources and Messages pages and of the three dashboards.

    Conventions.
    - A table is the list of its rows; a row is a record with one field per
      column, named as the column.  A NOT NULL column has the type of its
      values, a nullable column is an [option].
    - [uuid] values are opaque identifiers, modelled as numbers.
    - A [decimal(10,2)] value is modelled by its unscaled integer, the
      number of hundredths: 50.00 is [5000].
    - Every policy is declared [TO authenticated]: a request is issued by an
      authenticated session, and [uid] below is its [auth.uid()].
    - A statement is the statement the client library sends: an INSERT
      without RETURNING, an UPDATE or DELETE [... WHERE id = target].
    - The tables of the first three migrations form the [database], those
      of the messaging migration the [messaging] store beside it. *)

From Stdlib Require Import ZArith NArith List String Bool Lia.
Import ListNotations.
Local Open Scope string_scope.
Local Open Scope Z_scope.

(** ** Column types *)

Definition uuid := N.
Bind Scope N_scope with uuid.
Definition text := string.
Definition integer := Z.
Definition decimal_10_2 := Z.
Definition timestamptz := Z.
Definition jsonb := string.

(** Domain of the 32-bit [integer] type. *)
Definition integer_fits (x : integer) : bool :=
  (-2147483648 <=? x) && (x <=? 2147483647).

(** Domain of [decimal(10,2)]: ten digits, two of them after the point. *)
Definition decimal_10_2_fits (x : decimal_10_2) : bool :=
  Z.abs x <? 10000000000.

(** SQL [x IN (v1, ..., vn)] on text values. *)
Definition IN (x : text) (vs : list text) : bool :=
  existsb (String.eqb x) vs.

(** A foreign key is satisfied when the referenced key exists; a nullable
    one also when it is NULL. *)
Definition references_opt (k : option uuid) (keys : list uuid) : bool :=
  match k with
  | None => true
  | Some x => existsb (N.eqb x) keys
  end.

Definition references (k : uuid) (keys : list uuid) : bool :=
  existsb (N.eqb k) keys.

(** ** Rows *)

Module user_profiles.
Record row := mk {
  id : uuid;
  role : text;
  full_name : text;
  phone : option text;
  language_preference : option text;
  state : option text;
  district : option text;
  profile_image_url : option text;
  is_active : option bool;
  created_at : option timestamptz;
  updated_at : option timestamptz
}.

(** [CHECK (role IN ('admin', 'farmer', 'buyer'))] *)
Definition role_check (r : row) : bool :=
  IN (role r) ["admin"; "farmer"; "buyer"].

(** The row [r] as stored under the key [k] (an UPDATE does not assign
    the key). *)
Definition with_id (k : uuid) (r : row) : row :=
  mk k (role r) (full_name r) (phone r) (language_preference r) (state r)
     (district r) (profile_image_url r) (is_active r) (created_at r)
     (updated_at r).
End user_profiles.

Module product_categories.
Record row := mk {
  id : uuid;
  name_en : text;
  name_hi : text;
  description : option text;
  icon : option text;
  created_at : option timestamptz
}.

Definition with_id (k : uuid) (r : row) : row :=
  mk k (name_en r) (name_hi r) (description r) (icon r) (created_at r).
End product_categories.

Module products.
Record row := mk {
  id : uuid;
  farmer_id : uuid;
  category_id : option uuid;
  name : text;
  description : text;
  price : decimal_10_2;
  unit : text;
  stock_quantity : integer;
  low_stock_threshold : option integer;
  images : option jsonb;
  is_organic : option bool;
  is_traditional : option bool;
  processing_method : option text;
  shelf_life_days : option integer;
  tags : option (list text);
  is_active : option bool;
  created_at : option timestamptz;
  updated_at : option timestamptz
}.

(** [CHECK (price >= 0)] *)
Definition price_check (r : row) : bool := 0 <=? price r.

(** [CHECK (stock_quantity >= 0)] *)
Definition stock_quantity_check (r : row) : bool := 0 <=? stock_quantity r.

Definition checks (r : row) : bool :=
  price_check r && stock_quantity_check r.

Definition opt_integer_fits (x : option integer) : bool :=
  match x with None => true | Some v => integer_fits v end.

Definition fits (r : row) : bool :=
  decimal_10_2_fits (price r) && integer_fits (stock_quantity r)
  && opt_integer_fits (low_stock_threshold r)
  && opt_integer_fits (shelf_life_days r).

Definition with_id (k : uuid) (r : row) : row :=
  mk k (farmer_id r) (category_id r) (name r) (description r) (price r)
     (unit r) (stock_quantity r) (low_stock_threshold r) (images r)
     (is_organic r) (is_traditional r) (processing_method r)
     (shelf_life_days r) (tags r) (is_active r) (created_at r)
     (updated_at r).

Definition with_category_id (c : option uuid) (r : row) : row :=
  mk (id r) (farmer_id r) c (name r) (description r) (price r)
     (unit r) (stock_quantity r) (low_stock_threshold r) (images r)
     (is_organic r) (is_traditional r) (processing_method r)
     (shelf_life_days r) (tags r) (is_active r) (created_at r)
     (updated_at r).
End products.

Module orders.
Record row := mk {
  id : uuid;
  buyer_id : uuid;
  farmer_id : uuid;
  total_amount : decimal_10_2;
  status : text;
  payment_status : text;
  delivery_address : jsonb;
  notes : option text;
  created_at : option timestamptz;
  updated_at : option timestamptz
}.

(** [CHECK (total_amount >= 0)] *)
Definition total_amount_check (r : row) : bool := 0 <=? total_amount r.

(** [CHECK (status IN ('pending', 'confirmed', 'shipped', 'delivered',
    'cancelled'))] *)
Definition status_check (r : row) : bool :=
  IN (status r) ["pending"; "confirmed"; "shipped"; "delivered"; "cancelled"].

(** [CHECK (payment_status IN ('pending', 'completed', 'failed',
    'refunded'))] *)
Definition payment_status_check (r : row) : bool :=
  IN (payment_status r) ["pending"; "completed"; "failed"; "refunded"].

Definition checks (r : row) : bool :=
  total_amount_check r && status_check r && payment_status_check r.

Definition fits (r : row) : bool := decimal_10_2_fits (total_amount r).

Definition with_id (k : uuid) (r : row) : row :=
  mk k (buyer_id r) (farmer_id r) (total_amount r) (status r)
     (payment_status r) (delivery_address r) (notes r) (created_at r)
     (updated_at r).

(** The row after [SET status = s]. *)
Definition with_status (s : text) (r : row) : row :=
  mk (id r) (buyer_id r) (farmer_id r) (total_amount r) s
     (payment_status r) (delivery_address r) (notes r) (created_at r)
     (updated_at r).
End orders.

Module order_items.
Record row := mk {
  id : uuid;
  order_id : uuid;
  product_id : uuid;
  quantity : integer;
  unit_price : decimal_10_2;
  subtotal : decimal_10_2;
  created_at : option timestamptz
}.

(** [CHECK (quantity > 0)] *)
Definition quantity_check (r : row) : bool := 0 <? quantity r.

(** [CHECK (unit_price >= 0)] *)
Definition unit_price_check (r : row) : bool := 0 <=? unit_price r.

(** [CHECK (subtotal >= 0)] *)
Definition subtotal_check (r : row) : bool := 0 <=? subtotal r.

Definition checks (r : row) : bool :=
  quantity_check r && unit_price_check r && subtotal_check r.

Definition fits (r : row) : bool :=
  integer_fits (quantity r) && decimal_10_2_fits (unit_price r)
  && decimal_10_2_fits (subtotal r).

(** The row with another value in the [subtotal] column. *)
Definition with_subtotal (s : decimal_10_2) (r : row) : row :=
  mk (id r) (order_id r) (product_id r) (quantity r) (unit_price r) s
     (created_at r).
End order_items.

Module reviews.
Record row := mk {
  id : uuid;
  product_id : uuid;
  buyer_id : uuid;
  order_id : option uuid;
  rating : integer;
  comment : option text;
  is_verified_purchase : option bool;
  created_at : option timestamptz;
  updated_at : option timestamptz
}.

(** [CHECK (rating >= 1 AND rating <= 5)] *)
Definition rating_check (r : row) : bool :=
  (1 <=? rating r) && (rating r <=? 5).

Definition checks (r : row) : bool := rating_check r.

Definition fits (r : row) : bool := integer_fits (rating r).

Definition with_id (k : uuid) (r : row) : row :=
  mk k (product_id r) (buyer_id r) (order_id r) (rating r) (comment r)
     (is_verified_purchase r) (created_at r) (updated_at r).

Definition with_order_id (o : option uuid) (r : row) : row :=
  mk (id r) (product_id r) (buyer_id r) o (rating r) (comment r)
     (is_verified_purchase r) (created_at r) (updated_at r).

(** Two rows collide on [UNIQUE(product_id, buyer_id, order_id)] when the
    three columns are equal; a NULL is equal to nothing, itself included,
    so a row whose [order_id] is NULL collides with no row. *)
Definition same_key (a b : row) : bool :=
  N.eqb (product_id a) (product_id b)
  && N.eqb (buyer_id a) (buyer_id b)
  && match order_id a, order_id b with
     | Some x, Some y => N.eqb x y
     | _, _ => false
     end.
End reviews.

Module messages.
Record row := mk {
  id : uuid;
  sender_id : uuid;
  receiver_id : uuid;
  product_id : option uuid;
  order_id : option uuid;
  content : text;
  is_read : option bool;
  created_at : option timestamptz
}.

Definition with_id (k : uuid) (r : row) : row :=
  mk k (sender_id r) (receiver_id r) (product_id r) (order_id r) (content r)
     (is_read r) (created_at r).

(** The row after [SET is_read = b]. *)
Definition with_is_read (b : option bool) (r : row) : row :=
  mk (id r) (sender_id r) (receiver_id r) (product_id r) (order_id r)
     (content r) b (created_at r).

(** The row after [SET content = c]. *)
Definition with_content (c : text) (r : row) : row :=
  mk (id r) (sender_id r) (receiver_id r) (product_id r) (order_id r) c
     (is_read r) (created_at r).
End messages.

Module educational_resources.
Record row := mk {
  id : uuid;
  title_en : text;
  title_hi : text;
  content_en : text;
  content_hi : text;
  category : text;
  tags : option (list text);
  author_id : option uuid;
  image_url : option text;
  is_published : option bool;
  view_count : option integer;
  created_at : option timestamptz;
  updated_at : option timestamptz
}.

Definition fits (r : row) : bool :=
  match view_count r with None => true | Some v => integer_fits v end.

Definition with_id (k : uuid) (r : row) : row :=
  mk k (title_en r) (title_hi r) (content_en r) (content_hi r) (category r)
     (tags r) (author_id r) (image_url r) (is_published r) (view_count r)
     (created_at r) (updated_at r).

(** The row after [SET view_count = v]. *)
Definition with_view_count (v : option integer) (r : row) : row :=
  mk (id r) (title_en r) (title_hi r) (content_en r) (content_hi r)
     (category r) (tags r) (author_id r) (image_url r) (is_published r) v
     (created_at r) (updated_at r).
End educational_resources.

Module resource_bookmarks.
Record row := mk {
  id : uuid;
  user_id : uuid;
  resource_id : uuid;
  created_at : option timestamptz
}.

(** [UNIQUE(user_id, resource_id)]; both columns are NOT NULL. *)
Definition same_key (a b : row) : bool :=
  N.eqb (user_id a) (user_id b) && N.eqb (resource_id a) (resource_id b).
End resource_bookmarks.

(** ** The database *)

Record database := mkdb {
  auth_users : list uuid;
  user_profiles : list user_profiles.row;
  product_categories : list product_categories.row;
  products : list products.row;
  orders : list orders.row;
  order_items : list order_items.row;
  reviews : list reviews.row
}.

Definition set_user_profiles (d : database) t :=
  mkdb (auth_users d) t (product_categories d) (products d) (orders d)
       (order_items d) (reviews d).
Definition set_product_categories (d : database) t :=
  mkdb (auth_users d) (user_profiles d) t (products d) (orders d)
       (order_items d) (reviews d).
Definition set_products (d : database) t :=
  mkdb (auth_users d) (user_profiles d) (product_categories d) t (orders d)
       (order_items d) (reviews d).
Definition set_orders (d : database) t :=
  mkdb (auth_users d) (user_profiles d) (product_categories d) (products d) t
       (order_items d) (reviews d).
Definition set_order_items (d : database) t :=
  mkdb (auth_users d) (user_profiles d) (product_categories d) (products d)
       (orders d) t (reviews d).
Definition set_reviews (d : database) t :=
  mkdb (auth_users d) (user_profiles d) (product_categories d) (products d)
       (orders d) (order_items d) t.

Record messaging := mkmsg {
  messages : list messages.row;
  educational_resources : list educational_resources.row;
  resource_bookmarks : list resource_bookmarks.row
}.

Definition set_messages (m : messaging) t :=
  mkmsg t (educational_resources m) (resource_bookmarks m).
Definition set_educational_resources (m : messaging) t :=
  mkmsg (messages m) t (resource_bookmarks m).
Definition set_resource_bookmarks (m : messaging) t :=
  mkmsg (messages m) (educational_resources m) t.

(** The class of the error that aborts a statement (nothing is written
    then).  [invalid_object_definition] is SQLSTATE 42P17, raised with the
    message "infinite recursion detected in policy for relation";
    [statement_too_complex] is 54001, the stack depth limit. *)
Inductive sqlstate :=
| numeric_value_out_of_range
| insufficient_privilege
| check_violation
| unique_violation
| foreign_key_violation
| invalid_object_definition
| statement_too_complex.

(** The result of a write to the database: the database after it, or the
    error. *)
Inductive outcome :=
| Committed (d : database)
| Rejected (e : sqlstate).

(** The result of a write to the messaging store. *)
Inductive outcome_m :=
| Committed_m (m : messaging)
| Rejected_m (e : sqlstate).

(** The result of a read: the rows, or the error. *)
Inductive selected (A : Type) :=
| Rows (rows : list A)
| Raised (e : sqlstate).
Arguments Rows {A} rows.
Arguments Raised {A} e.

(** ** Row-level security

    Every table has row-level security enabled.  Before it runs, a
    statement on a table is rewritten with the policies of the table that
    apply to its command: the USING expressions restrict the rows it reads,
    the WITH CHECK expressions are checked on the rows it writes; an UPDATE
    or DELETE [... WHERE id = target] reads the table, so the SELECT
    policies of the table apply to it as well.  The policies of one command
    are combined with OR; a NULL result counts as false.

    A sub-select inside a policy is a query of the same session: it is
    rewritten in turn with the SELECT policies of the table it reads, and
    it returns the rows these policies let the session read.  While the
    policies of a table are expanded the table is on the list
    [activeRIRs]; when the rewriter comes to a table that is on the list
    and whose policies have sub-selects, it aborts the statement with
    [invalid_object_definition], before any row is read.

    A policy below is the boolean its expression evaluates to, for the
    session [uid], on the row [r], given the rows its sub-selects return. *)

Inductive relation :=
| rel_user_profiles
| rel_product_categories
| rel_products
| rel_orders
| rel_order_items
| rel_reviews
| rel_messages
| rel_educational_resources
| rel_resource_bookmarks.

Definition relation_eqb (a b : relation) : bool :=
  match a, b with
  | rel_user_profiles, rel_user_profiles
  | rel_product_categories, rel_product_categories
  | rel_products, rel_products
  | rel_orders, rel_orders
  | rel_order_items, rel_order_items
  | rel_reviews, rel_reviews
  | rel_messages, rel_messages
  | rel_educational_resources, rel_educational_resources
  | rel_resource_bookmarks, rel_resource_bookmarks => true
  | _, _ => false
  end.

Definition active (t : relation) (activeRIRs : list relation) : bool :=
  existsb (relation_eqb t) activeRIRs.

(** The tables on [activeRIRs] are distinct, so an expansion is never
    nested deeper than the number of tables. *)
Definition expansion_depth : nat := 10%nat.

(** [EXISTS (SELECT 1 FROM user_profiles WHERE id = auth.uid() AND role IN
    (...))], on the rows [profiles] that the sub-select reads; with a single
    role this is [role = '...']. *)
Definition EXISTS_own_profile_with_role (profiles : list user_profiles.row)
    (uid : uuid) (roles : list text) : bool :=
  existsb (fun p => N.eqb (user_profiles.id p) uid
                    && IN (user_profiles.role p) roles)
          profiles.

(** *** user_profiles *)

Definition Users_can_read_own_profile (uid : uuid) (r : user_profiles.row)
    : bool :=
  N.eqb uid (user_profiles.id r).

Definition Admins_can_read_all_profiles (profiles : list user_profiles.row)
    (uid : uuid) (r : user_profiles.row) : bool :=
  EXISTS_own_profile_with_role profiles uid ["admin"].

(** The scalar sub-select [(SELECT role FROM user_profiles WHERE id =
    auth.uid())]: NULL when no row matches. *)
Definition SELECT_role_of_uid (profiles : list user_profiles.row)
    (uid : uuid) : option text :=
  match filter (fun p => N.eqb (user_profiles.id p) uid) profiles with
  | [] => None
  | p :: _ => Some (user_profiles.role p)
  end.

Definition Users_can_update_own_profile_using (uid : uuid)
    (r : user_profiles.row) : bool :=
  N.eqb uid (user_profiles.id r).

Definition Users_can_update_own_profile_check
    (profiles : list user_profiles.row) (uid : uuid) (r : user_profiles.row)
    : bool :=
  N.eqb uid (user_profiles.id r)
  && match SELECT_role_of_uid profiles uid with
     | Some current => String.eqb (user_profiles.role r) current
     | None => false
     end.

Definition Users_can_insert_own_profile (uid : uuid) (r : user_profiles.row)
    : bool :=
  N.eqb uid (user_profiles.id r).

Definition user_profiles_select_policy (profiles : list user_profiles.row)
    (uid : uuid) (r : user_profiles.row) : bool :=
  Users_can_read_own_profile uid r
  || Admins_can_read_all_profiles profiles uid r.

(** A read of user_profiles by the session, at nesting [depth] of the
    expansion.  "Admins can read all profiles" has a sub-select, and it
    reads user_profiles: the table is put on the list and the sub-select
    is expanded with the same policies. *)
Fixpoint sub_SELECT_user_profiles (depth : nat) (activeRIRs : list relation)
    (d : database) (uid : uuid) : selected user_profiles.row :=
  match depth with
  | O => Raised statement_too_complex
  | S depth' =>
      if active rel_user_profiles activeRIRs
      then Raised invalid_object_definition
      else
        match sub_SELECT_user_profiles depth'
                (rel_user_profiles :: activeRIRs) d uid with
        | Raised e => Raised e
        | Rows profiles =>
            Rows (filter (user_profiles_select_policy profiles uid)
                         (user_profiles d))
        end
  end.

Definition SELECT_user_profiles (d : database) (uid : uuid)
    : selected user_profiles.row :=
  sub_SELECT_user_profiles expansion_depth [] d uid.

(** The expansion of the policies of the table [t] when they sub-select
    user_profiles: [k] is the statement once the sub-select has its rows,
    [raise] the statement aborted. *)
Definition with_user_profiles {R : Type} (t : relation)
    (activeRIRs : list relation) (d : database) (uid : uuid)
    (raise : sqlstate -> R) (k : list user_profiles.row -> R) : R :=
  if active t activeRIRs then raise invalid_object_definition
  else
    match sub_SELECT_user_profiles expansion_depth (t :: activeRIRs) d uid with
    | Raised e => raise e
    | Rows profiles => k profiles
    end.

(** *** product_categories *)

Definition Anyone_can_read_categories (uid : uuid)
    (r : product_categories.row) : bool := true.

(** FOR ALL; USING and WITH CHECK are the same expression. *)
Definition Only_admins_can_manage_categories
    (profiles : list user_profiles.row) (uid : uuid)
    (r : product_categories.row) : bool :=
  EXISTS_own_profile_with_role profiles uid ["admin"].

Definition product_categories_select_policy
    (profiles : list user_profiles.row) (uid : uuid)
    (r : product_categories.row) : bool :=
  Anyone_can_read_categories uid r
  || Only_admins_can_manage_categories profiles uid r.

Definition SELECT_product_categories (d : database) (uid : uuid)
    : selected product_categories.row :=
  with_user_profiles rel_product_categories [] d uid Raised
    (fun profiles =>
       Rows (filter (product_categories_select_policy profiles uid)
                    (product_categories d))).

(** *** products *)

Definition Farmers_can_read_own_products (profiles : list user_profiles.row)
    (uid : uuid) (r : products.row) : bool :=
  N.eqb (products.farmer_id r) uid
  || EXISTS_own_profile_with_role profiles uid ["admin"; "buyer"].

Definition Farmers_can_create_own_products
    (profiles : list user_profiles.row) (uid : uuid) (r : products.row)
    : bool :=
  N.eqb (products.farmer_id r) uid
  && EXISTS_own_profile_with_role profiles uid ["farmer"].

(** USING and WITH CHECK are the same expression. *)
Definition Farmers_can_update_own_products (uid : uuid) (r : products.row)
    : bool :=
  N.eqb (products.farmer_id r) uid.

Definition Farmers_can_delete_own_products (uid : uuid) (r : products.row)
    : bool :=
  N.eqb (products.farmer_id r) uid.

Definition products_select_policy (profiles : list user_profiles.row)
    (uid : uuid) (r : products.row) : bool :=
  Farmers_can_read_own_products profiles uid r.

Definition SELECT_products (d : database) (uid : uuid)
    : selected products.row :=
  with_user_profiles rel_products [] d uid Raised
    (fun profiles =>
       Rows (filter (products_select_policy profiles uid) (products d))).

(** *** orders *)

Definition Buyers_can_read_own_orders (uid : uuid) (r : orders.row) : bool :=
  N.eqb (orders.buyer_id r) uid.

Definition Farmers_can_read_their_orders (uid : uuid) (r : orders.row)
    : bool :=
  N.eqb (orders.farmer_id r) uid.

Definition Admins_can_read_all_orders (profiles : list user_profiles.row)
    (uid : uuid) (r : orders.row) : bool :=
  EXISTS_own_profile_with_role profiles uid ["admin"].

Definition Buyers_can_create_orders (profiles : list user_profiles.row)
    (uid : uuid) (r : orders.row) : bool :=
  N.eqb (orders.buyer_id r) uid
  && EXISTS_own_profile_with_role profiles uid ["buyer"].

(** USING and WITH CHECK are the same expression. *)
Definition Farmers_can_update_their_orders (uid : uuid) (r : orders.row)
    : bool :=
  N.eqb (orders.farmer_id r) uid.

Definition orders_select_policy (profiles : list user_profiles.row)
    (uid : uuid) (r : orders.row) : bool :=
  Buyers_can_read_own_orders uid r
  || Farmers_can_read_their_orders uid r
  || Admins_can_read_all_orders profiles uid r.

(** A read of orders by the session while the tables of [activeRIRs] are
    expanded. *)
Definition sub_SELECT_orders (activeRIRs : list relation) (d : database)
    (uid : uuid) : selected orders.row :=
  with_user_profiles rel_orders activeRIRs d uid Raised
    (fun profiles =>
       Rows (filter (orders_select_policy profiles uid) (orders d))).

Definition SELECT_orders (d : database) (uid : uuid) : selected orders.row :=
  sub_SELECT_orders [] d uid.

(** The expansion of the policies of the table [t] when they sub-select
    orders. *)
Definition with_orders {R : Type} (t : relation)
    (activeRIRs : list relation) (d : database) (uid : uuid)
    (raise : sqlstate -> R) (k : list orders.row -> R) : R :=
  if active t activeRIRs then raise invalid_object_definition
  else
    match sub_SELECT_orders (t :: activeRIRs) d uid with
    | Raised e => raise e
    | Rows ords => k ords
    end.

(** *** order_items *)

Definition Users_can_read_order_items_for_their_orders
    (ords : list orders.row) (uid : uuid) (r : order_items.row) : bool :=
  existsb (fun o => N.eqb (orders.id o) (order_items.order_id r)
                    && (N.eqb (orders.buyer_id o) uid
                        || N.eqb (orders.farmer_id o) uid))
          ords.

Definition Buyers_can_create_order_items (ords : list orders.row)
    (uid : uuid) (r : order_items.row) : bool :=
  existsb (fun o => N.eqb (orders.id o) (order_items.order_id r)
                    && N.eqb (orders.buyer_id o) uid)
          ords.

Definition order_items_select_policy (ords : list orders.row) (uid : uuid)
    (r : order_items.row) : bool :=
  Users_can_read_order_items_for_their_orders ords uid r.

Definition sub_SELECT_order_items (activeRIRs : list relation)
    (d : database) (uid : uuid) : selected order_items.row :=
  with_orders rel_order_items activeRIRs d uid Raised
    (fun ords =>
       Rows (filter (order_items_select_policy ords uid) (order_items d))).

Definition SELECT_order_items (d : database) (uid : uuid)
    : selected order_items.row :=
  sub_SELECT_order_items [] d uid.

(** *** reviews *)

Definition Anyone_can_read_reviews (uid : uuid) (r : reviews.row) : bool :=
  true.

(** The join [order_items JOIN orders ON orders.id = order_items.order_id]
    restricted by the WHERE clause of the policy, on the rows the
    sub-select reads from the two tables. *)
Definition EXISTS_delivered_item (items : list order_items.row)
    (ords : list orders.row) (uid : uuid) (r : reviews.row) : bool :=
  existsb (fun oi =>
     existsb (fun o =>
        N.eqb (orders.id o) (order_items.order_id oi)
        && N.eqb (order_items.product_id oi) (reviews.product_id r)
        && N.eqb (orders.buyer_id o) uid
        && String.eqb (orders.status o) "delivered")
       ords)
    items.

Definition Buyers_can_create_reviews_for_purchased_products
    (profiles : list user_profiles.row) (items : list order_items.row)
    (ords : list orders.row) (uid : uuid) (r : reviews.row) : bool :=
  N.eqb (reviews.buyer_id r) uid
  && EXISTS_own_profile_with_role profiles uid ["buyer"]
  && EXISTS_delivered_item items ords uid r.

(** USING and WITH CHECK are the same expression. *)
Definition Buyers_can_update_own_reviews (uid : uuid) (r : reviews.row)
    : bool :=
  N.eqb (reviews.buyer_id r) uid.

Definition reviews_select_policy (uid : uuid) (r : reviews.row) : bool :=
  Anyone_can_read_reviews uid r.

(** The SELECT policy of reviews has no sub-select: nothing is expanded and
    the read cannot fail. *)
Definition SELECT_reviews (d : database) (uid : uuid) : list reviews.row :=
  filter (reviews_select_policy uid) (reviews d).

(** *** messages *)

Definition Users_can_read_their_messages (uid : uuid) (r : messages.row)
    : bool :=
  N.eqb (messages.sender_id r) uid || N.eqb (messages.receiver_id r) uid.

Definition Users_can_send_messages (uid : uuid) (r : messages.row) : bool :=
  N.eqb (messages.sender_id r) uid.

(** USING and WITH CHECK are the same expression. *)
Definition Users_can_mark_their_received_messages_as_read (uid : uuid)
    (r : messages.row) : bool :=
  N.eqb (messages.receiver_id r) uid.

(** No policy of messages has a sub-select. *)
Definition SELECT_messages (d : database) (m : messaging) (uid : uuid)
    : list messages.row :=
  filter (Users_can_read_their_messages uid) (messages m).

(** *** educational_resources *)

(** [.eq('is_active', true)], [is_published = true]: a NULL flag does not
    match. *)
Definition is_TRUE (b : option bool) : bool :=
  match b with Some true => true | _ => false end.

(** [author_id = auth.uid()] on the nullable column: NULL is not equal. *)
Definition eq_uid (k : option uuid) (uid : uuid) : bool :=
  match k with Some x => N.eqb x uid | None => false end.

Definition Anyone_can_read_published_resources
    (profiles : list user_profiles.row) (uid : uuid)
    (r : educational_resources.row) : bool :=
  is_TRUE (educational_resources.is_published r)
  || eq_uid (educational_resources.author_id r) uid
  || EXISTS_own_profile_with_role profiles uid ["admin"].

(** FOR ALL; USING and WITH CHECK are the same expression. *)
Definition Admins_can_manage_resources (profiles : list user_profiles.row)
    (uid : uuid) (r : educational_resources.row) : bool :=
  EXISTS_own_profile_with_role profiles uid ["admin"].

Definition educational_resources_select_policy
    (profiles : list user_profiles.row) (uid : uuid)
    (r : educational_resources.row) : bool :=
  Anyone_can_read_published_resources profiles uid r
  || Admins_can_manage_resources profiles uid r.

Definition SELECT_educational_resources (d : database) (m : messaging)
    (uid : uuid) : selected educational_resources.row :=
  with_user_profiles rel_educational_resources [] d uid Raised
    (fun profiles =>
       Rows (filter (educational_resources_select_policy profiles uid)
                    (educational_resources m))).

(** *** resource_bookmarks *)

Definition Users_can_read_own_bookmarks (uid : uuid)
    (r : resource_bookmarks.row) : bool :=
  N.eqb (resource_bookmarks.user_id r) uid.

Definition Users_can_create_own_bookmarks (uid : uuid)
    (r : resource_bookmarks.row) : bool :=
  N.eqb (resource_bookmarks.user_id r) uid.

Definition Users_can_delete_own_bookmarks (uid : uuid)
    (r : resource_bookmarks.row) : bool :=
  N.eqb (resource_bookmarks.user_id r) uid.

(** No policy of resource_bookmarks has a sub-select. *)
Definition SELECT_resource_bookmarks (d : database) (m : messaging)
    (uid : uuid) : list resource_bookmarks.row :=
  filter (Users_can_read_own_bookmarks uid) (resource_bookmarks m).

(** ** Writes

    A statement is rewritten first; when the expansion of its policies
    fails nothing else happens.  Then the values it assigns are coerced to
    the column types.  Each row written by INSERT or UPDATE is checked
    against the WITH CHECK expressions of the policies, against the CHECK
    constraints, entered in the unique indexes, and last the foreign keys
    are verified (by the server itself, outside row-level security).  The
    first step that fails aborts the statement. *)
Definition statement (fits policy checks unique fkeys : bool)
    (after : database) : outcome :=
  if negb fits then Rejected numeric_value_out_of_range
  else if negb policy then Rejected insufficient_privilege
  else if negb checks then Rejected check_violation
  else if negb unique then Rejected unique_violation
  else if negb fkeys then Rejected foreign_key_violation
  else Committed after.

(** The same steps, for a write to the messaging store. *)
Definition statement_m (fits policy checks unique fkeys : bool)
    (after : messaging) : outcome_m :=
  if negb fits then Rejected_m numeric_value_out_of_range
  else if negb policy then Rejected_m insufficient_privilege
  else if negb checks then Rejected_m check_violation
  else if negb unique then Rejected_m unique_violation
  else if negb fkeys then Rejected_m foreign_key_violation
  else Committed_m after.

(** A foreign key is verified on UPDATE only when the column changes. *)
Definition fk_upd (old new : uuid) (keys : list uuid) : bool :=
  N.eqb new old || references new keys.

Definition fk_upd_opt (old new : option uuid) (keys : list uuid) : bool :=
  match old, new with
  | Some a, Some b => N.eqb b a || references b keys
  | _, _ => references_opt new keys
  end.

(** UPDATE and DELETE are the statements [... WHERE id = target]: they act on
    the rows with that key which pass the USING expressions, and complete
    with the tables unchanged when there is none.  An UPDATE assigns all
    the columns of [new] but the key. *)
Definition replace {A} (hit : A -> bool) (new : A) (rows : list A) : list A :=
  map (fun x => if hit x then new else x) rows.

(** *** user_profiles *)

(** "Users can insert own profile" has no sub-select: nothing is
    expanded. *)
Definition INSERT_user_profiles (d : database) (uid : uuid)
    (r : user_profiles.row) : outcome :=
  statement true
    (Users_can_insert_own_profile uid r)
    (user_profiles.role_check r)
    (negb (existsb (fun x => N.eqb (user_profiles.id x) (user_profiles.id r))
                   (user_profiles d)))
    (references (user_profiles.id r) (auth_users d))
    (set_user_profiles d (r :: user_profiles d)).

(** The WITH CHECK of "Users can update own profile" sub-selects
    user_profiles, as does the SELECT policy "Admins can read all
    profiles". *)
Definition UPDATE_user_profiles (d : database) (uid : uuid) (target : uuid)
    (new : user_profiles.row) : outcome :=
  with_user_profiles rel_user_profiles [] d uid Rejected
    (fun profiles =>
       let r := user_profiles.with_id target new in
       let hit := fun x => N.eqb (user_profiles.id x) target
                           && Users_can_update_own_profile_using uid x
                           && user_profiles_select_policy profiles uid x in
       match filter hit (user_profiles d) with
       | [] => Committed d
       | _ :: _ =>
           statement true
             (Users_can_update_own_profile_check profiles uid r
              && user_profiles_select_policy profiles uid r)
             (user_profiles.role_check r)
             true
             true
             (set_user_profiles d (replace hit r (user_profiles d)))
       end).

(** *** product_categories *)

Definition INSERT_product_categories (d : database) (uid : uuid)
    (r : product_categories.row) : outcome :=
  with_user_profiles rel_product_categories [] d uid Rejected
    (fun profiles =>
       statement true
         (Only_admins_can_manage_categories profiles uid r)
         true
         (negb (existsb (fun x => N.eqb (product_categories.id x)
                                        (product_categories.id r))
                        (product_categories d)))
         true
         (set_product_categories d (r :: product_categories d))).

Definition UPDATE_product_categories (d : database) (uid : uuid)
    (target : uuid) (new : product_categories.row) : outcome :=
  with_user_profiles rel_product_categories [] d uid Rejected
    (fun profiles =>
       let r := product_categories.with_id target new in
       let hit := fun x => N.eqb (product_categories.id x) target
                           && Only_admins_can_manage_categories profiles uid x
                           && product_categories_select_policy profiles uid x
       in
       match filter hit (product_categories d) with
       | [] => Committed d
       | _ :: _ =>
           statement true
             (Only_admins_can_manage_categories profiles uid r
              && product_categories_select_policy profiles uid r)
             true true true
             (set_product_categories d
                (replace hit r (product_categories d)))
       end).

(** [category_id ... ON DELETE SET NULL] on products. *)
Definition DELETE_product_categories (d : database) (uid : uuid)
    (target : uuid) : outcome :=
  with_user_profiles rel_product_categories [] d uid Rejected
    (fun profiles =>
       let hit := fun x => N.eqb (product_categories.id x) target
                           && Only_admins_can_manage_categories profiles uid x
                           && product_categories_select_policy profiles uid x
       in
       match filter hit (product_categories d) with
       | [] => Committed d
       | _ :: _ =>
           Committed
             (mkdb (auth_users d) (user_profiles d)
                (filter (fun x => negb (hit x)) (product_categories d))
                (map (fun p => match products.category_id p with
                               | Some c => if N.eqb c target
                                           then products.with_category_id None p
                                           else p
                               | None => p
                               end) (products d))
                (orders d) (order_items d) (reviews d))
       end).

(** *** products *)

Definition INSERT_products (d : database) (uid : uuid)
    (r : products.row) : outcome :=
  with_user_profiles rel_products [] d uid Rejected
    (fun profiles =>
       statement (products.fits r)
         (Farmers_can_create_own_products profiles uid r)
         (products.checks r)
         (negb (existsb (fun x => N.eqb (products.id x) (products.id r))
                        (products d)))
         (references (products.farmer_id r)
            (map user_profiles.id (user_profiles d))
          && references_opt (products.category_id r)
               (map product_categories.id (product_categories d)))
         (set_products d (r :: products d))).

(** The policy of UPDATE has no sub-select; the SELECT policy that the
    WHERE clause brings in has one. *)
Definition UPDATE_products (d : database) (uid : uuid) (target : uuid)
    (new : products.row) : outcome :=
  with_user_profiles rel_products [] d uid Rejected
    (fun profiles =>
       let r := products.with_id target new in
       let hit := fun x => N.eqb (products.id x) target
                           && Farmers_can_update_own_products uid x
                           && products_select_policy profiles uid x in
       if negb (products.fits r) then Rejected numeric_value_out_of_range
       else
         match filter hit (products d) with
         | [] => Committed d
         | olds =>
             statement (products.fits r)
               (Farmers_can_update_own_products uid r
                && products_select_policy profiles uid r)
               (products.checks r)
               true
               (forallb (fun old =>
                   fk_upd (products.farmer_id old) (products.farmer_id r)
                     (map user_profiles.id (user_profiles d))
                   && fk_upd_opt (products.category_id old)
                        (products.category_id r)
                        (map product_categories.id (product_categories d)))
                  olds)
               (set_products d (replace hit r (products d)))
         end).

(** [product_id ... ON DELETE CASCADE] on order_items and on reviews.  (The
    messages that name the product are in the messaging store:
    [ON DELETE SET NULL], see [SET_NULL_messages_product_id].) *)
Definition DELETE_products (d : database) (uid : uuid) (target : uuid)
    : outcome :=
  with_user_profiles rel_products [] d uid Rejected
    (fun profiles =>
       let hit := fun x => N.eqb (products.id x) target
                           && Farmers_can_delete_own_products uid x
                           && products_select_policy profiles uid x in
       match filter hit (products d) with
       | [] => Committed d
       | _ :: _ =>
           Committed
             (mkdb (auth_users d) (user_profiles d) (product_categories d)
                (filter (fun x => negb (hit x)) (products d))
                (orders d)
                (filter (fun oi =>
                           negb (N.eqb (order_items.product_id oi) target))
                        (order_items d))
                (filter (fun rv =>
                           negb (N.eqb (reviews.product_id rv) target))
                        (reviews d)))
       end).

(** *** orders *)

Definition INSERT_orders (d : database) (uid : uuid) (r : orders.row)
    : outcome :=
  with_user_profiles rel_orders [] d uid Rejected
    (fun profiles =>
       statement (orders.fits r)
         (Buyers_can_create_orders profiles uid r)
         (orders.checks r)
         (negb (existsb (fun x => N.eqb (orders.id x) (orders.id r))
                        (orders d)))
         (references (orders.buyer_id r)
            (map user_profiles.id (user_profiles d))
          && references (orders.farmer_id r)
               (map user_profiles.id (user_profiles d)))
         (set_orders d (r :: orders d))).

(** The policy of UPDATE has no sub-select; the SELECT policy "Admins can
    read all orders", which the WHERE clause brings in, has one. *)
Definition UPDATE_orders (d : database) (uid : uuid) (target : uuid)
    (new : orders.row) : outcome :=
  with_user_profiles rel_orders [] d uid Rejected
    (fun profiles =>
       let r := orders.with_id target new in
       let hit := fun x => N.eqb (orders.id x) target
                           && Farmers_can_update_their_orders uid x
                           && orders_select_policy profiles uid x in
       if negb (orders.fits r) then Rejected numeric_value_out_of_range
       else
         match filter hit (orders d) with
         | [] => Committed d
         | olds =>
             statement (orders.fits r)
               (Farmers_can_update_their_orders uid r
                && orders_select_policy profiles uid r)
               (orders.checks r)
               true
               (forallb (fun old =>
                   fk_upd (orders.buyer_id old) (orders.buyer_id r)
                     (map user_profiles.id (user_profiles d))
                   && fk_upd (orders.farmer_id old) (orders.farmer_id r)
                        (map user_profiles.id (user_profiles d))) olds)
               (set_orders d (replace hit r (orders d)))
         end).

(** *** order_items *)

Definition INSERT_order_items (d : database) (uid : uuid)
    (r : order_items.row) : outcome :=
  with_orders rel_order_items [] d uid Rejected
    (fun ords =>
       statement (order_items.fits r)
         (Buyers_can_create_order_items ords uid r)
         (order_items.checks r)
         (negb (existsb (fun x => N.eqb (order_items.id x) (order_items.id r))
                        (order_items d)))
         (references (order_items.order_id r) (map orders.id (orders d))
          && references (order_items.product_id r)
               (map products.id (products d)))
         (set_order_items d (r :: order_items d))).

(** *** reviews *)

(** The primary key and [UNIQUE(product_id, buyer_id, order_id)], against
    the rows [others] already stored. *)
Definition reviews_unique (others : list reviews.row) (r : reviews.row)
    : bool :=
  negb (existsb (fun x => N.eqb (reviews.id x) (reviews.id r)) others)
  && negb (existsb (fun x => reviews.same_key x r) others).

(** The WITH CHECK sub-selects user_profiles, and order_items joined with
    orders. *)
Definition INSERT_reviews (d : database) (uid : uuid) (r : reviews.row)
    : outcome :=
  with_user_profiles rel_reviews [] d uid Rejected
    (fun profiles =>
       match sub_SELECT_order_items [rel_reviews] d uid,
             sub_SELECT_orders [rel_reviews] d uid with
       | Rows items, Rows ords =>
           statement (reviews.fits r)
             (Buyers_can_create_reviews_for_purchased_products
                profiles items ords uid r)
             (reviews.checks r)
             (reviews_unique (reviews d) r)
             (references (reviews.product_id r) (map products.id (products d))
              && references (reviews.buyer_id r)
                   (map user_profiles.id (user_profiles d))
              && references_opt (reviews.order_id r)
                   (map orders.id (orders d)))
             (set_reviews d (r :: reviews d))
       | Raised e, _ => Rejected e
       | Rows _, Raised e => Rejected e
       end).

(** Neither the policy of UPDATE nor the SELECT policy of reviews has a
    sub-select: nothing is expanded. *)
Definition UPDATE_reviews (d : database) (uid : uuid) (target : uuid)
    (new : reviews.row) : outcome :=
  let r := reviews.with_id target new in
  let hit := fun x => N.eqb (reviews.id x) target
                      && Buyers_can_update_own_reviews uid x in
  if negb (reviews.fits r) then Rejected numeric_value_out_of_range
  else
    match filter hit (reviews d) with
    | [] => Committed d
    | olds =>
        statement (reviews.fits r)
          (Buyers_can_update_own_reviews uid r)
          (reviews.checks r)
          (reviews_unique (filter (fun x => negb (hit x)) (reviews d)) r)
          (forallb (fun old =>
              fk_upd (reviews.product_id old) (reviews.product_id r)
                (map products.id (products d))
              && fk_upd (reviews.buyer_id old) (reviews.buyer_id r)
                   (map user_profiles.id (user_profiles d))
              && fk_upd_opt (reviews.order_id old) (reviews.order_id r)
                   (map orders.id (orders d))) olds)
          (set_reviews d (replace hit r (reviews d)))
    end.

(** *** Every write to the database

    The tables have no policy for the other statements (DELETE on
    user_profiles, orders and reviews, UPDATE and DELETE on order_items):
    such a statement changes nothing. *)
Inductive write :=
| insert_user_profiles (r : user_profiles.row)
| update_user_profiles (target : uuid) (new : user_profiles.row)
| insert_product_categories (r : product_categories.row)
| update_product_categories (target : uuid) (new : product_categories.row)
| delete_product_categories (target : uuid)
| insert_products (r : products.row)
| update_products (target : uuid) (new : products.row)
| delete_products (target : uuid)
| insert_orders (r : orders.row)
| update_orders (target : uuid) (new : orders.row)
| insert_order_items (r : order_items.row)
| insert_reviews (r : reviews.row)
| update_reviews (target : uuid) (new : reviews.row).

Definition execute (d : database) (uid : uuid) (w : write) : outcome :=
  match w with
  | insert_user_profiles r => INSERT_user_profiles d uid r
  | update_user_profiles t r => UPDATE_user_profiles d uid t r
  | insert_product_categories r => INSERT_product_categories d uid r
  | update_product_categories t r => UPDATE_product_categories d uid t r
  | delete_product_categories t => DELETE_product_categories d uid t
  | insert_products r => INSERT_products d uid r
  | update_products t r => UPDATE_products d uid t r
  | delete_products t => DELETE_products d uid t
  | insert_orders r => INSERT_orders d uid r
  | update_orders t r => UPDATE_orders d uid t r
  | insert_order_items r => INSERT_order_items d uid r
  | insert_reviews r => INSERT_reviews d uid r
  | update_reviews t r => UPDATE_reviews d uid t r
  end.

(** *** messages

    An UPDATE of the messaging store is [UPDATE ... SET ... WHERE id =
    target]: [set] maps a stored row to the row after the assignments, and
    the key is kept.  No policy of messages has a sub-select; the SELECT
    policy holds of every row the policy of UPDATE lets through. *)

Definition INSERT_messages (d : database) (m : messaging) (uid : uuid)
    (r : messages.row) : outcome_m :=
  statement_m true
    (Users_can_send_messages uid r)
    true
    (negb (existsb (fun x => N.eqb (messages.id x) (messages.id r))
                   (messages m)))
    (references (messages.sender_id r) (map user_profiles.id (user_profiles d))
     && references (messages.receiver_id r)
          (map user_profiles.id (user_profiles d))
     && references_opt (messages.product_id r) (map products.id (products d))
     && references_opt (messages.order_id r) (map orders.id (orders d)))
    (set_messages m (r :: messages m)).

Definition UPDATE_messages (d : database) (m : messaging) (uid : uuid)
    (target : uuid) (set : messages.row -> messages.row) : outcome_m :=
  let hit := fun x => N.eqb (messages.id x) target
                      && Users_can_mark_their_received_messages_as_read uid x
  in
  let new := fun x => messages.with_id target (set x) in
  match filter hit (messages m) with
  | [] => Committed_m m
  | olds =>
      statement_m true
        (forallb (fun old =>
            Users_can_mark_their_received_messages_as_read uid (new old))
           olds)
        true
        true
        (forallb (fun old =>
            fk_upd (messages.sender_id old) (messages.sender_id (new old))
              (map user_profiles.id (user_profiles d))
            && fk_upd (messages.receiver_id old)
                 (messages.receiver_id (new old))
                 (map user_profiles.id (user_profiles d))
            && fk_upd_opt (messages.product_id old)
                 (messages.product_id (new old))
                 (map products.id (products d))
            && fk_upd_opt (messages.order_id old) (messages.order_id (new old))
                 (map orders.id (orders d))) olds)
        (set_messages m
           (map (fun x => if hit x then new x else x) (messages m)))
  end.


(** *** educational_resources *)

Definition INSERT_educational_resources (d : database) (m : messaging)
    (uid : uuid) (r : educational_resources.row) : outcome_m :=
  with_user_profiles rel_educational_resources [] d uid Rejected_m
    (fun profiles =>
       statement_m (educational_resources.fits r)
         (Admins_can_manage_resources profiles uid r)
         true
         (negb (existsb (fun x => N.eqb (educational_resources.id x)
                                        (educational_resources.id r))
                        (educational_resources m)))
         (references_opt (educational_resources.author_id r)
            (map user_profiles.id (user_profiles d)))
         (set_educational_resources m (r :: educational_resources m))).

Definition UPDATE_educational_resources (d : database) (m : messaging)
    (uid : uuid) (target : uuid)
    (set : educational_resources.row -> educational_resources.row)
    : outcome_m :=
  with_user_profiles rel_educational_resources [] d uid Rejected_m
    (fun profiles =>
       let hit := fun x =>
         N.eqb (educational_resources.id x) target
         && Admins_can_manage_resources profiles uid x
         && educational_resources_select_policy profiles uid x in
       let new := fun x => educational_resources.with_id target (set x) in
       match filter hit (educational_resources m) with
       | [] => Committed_m m
       | olds =>
           statement_m
             (forallb (fun old => educational_resources.fits (new old)) olds)
             (forallb (fun old =>
                 Admins_can_manage_resources profiles uid (new old)
                 && educational_resources_select_policy profiles uid
                      (new old)) olds)
             true
             true
             (forallb (fun old =>
                 fk_upd_opt (educational_resources.author_id old)
                   (educational_resources.author_id (new old))
                   (map user_profiles.id (user_profiles d))) olds)
             (set_educational_resources m
                (map (fun x => if hit x then new x else x)
                     (educational_resources m)))
       end).

(** [resource_id ... ON DELETE CASCADE] on resource_bookmarks. *)
Definition DELETE_educational_resources (d : database) (m : messaging)
    (uid : uuid) (target : uuid) : outcome_m :=
  with_user_profiles rel_educational_resources [] d uid Rejected_m
    (fun profiles =>
       let hit := fun x =>
         N.eqb (educational_resources.id x) target
         && Admins_can_manage_resources profiles uid x
         && educational_resources_select_policy profiles uid x in
       match filter hit (educational_resources m) with
       | [] => Committed_m m
       | _ :: _ =>
           Committed_m
             (mkmsg (messages m)
                (filter (fun x => negb (hit x)) (educational_resources m))
                (filter (fun b =>
                           negb (N.eqb (resource_bookmarks.resource_id b)
                                       target))
                        (resource_bookmarks m)))
       end).

(** *** resource_bookmarks

    No policy of resource_bookmarks has a sub-select; the SELECT policy is
    the expression of the policy of DELETE. *)

Definition INSERT_resource_bookmarks (d : database) (m : messaging)
    (uid : uuid) (r : resource_bookmarks.row) : outcome_m :=
  statement_m true
    (Users_can_create_own_bookmarks uid r)
    true
    (negb (existsb (fun x => N.eqb (resource_bookmarks.id x)
                                   (resource_bookmarks.id r))
                   (resource_bookmarks m))
     && negb (existsb (fun x => resource_bookmarks.same_key x r)
                      (resource_bookmarks m)))
    (references (resource_bookmarks.user_id r)
       (map user_profiles.id (user_profiles d))
     && references (resource_bookmarks.resource_id r)
          (map educational_resources.id (educational_resources m)))
    (set_resource_bookmarks m (r :: resource_bookmarks m)).

Definition DELETE_resource_bookmarks (d : database) (m : messaging)
    (uid : uuid) (target : uuid) : outcome_m :=
  let hit := fun x => N.eqb (resource_bookmarks.id x) target
                      && Users_can_delete_own_bookmarks uid x in
  Committed_m
    (set_resource_bookmarks m
       (filter (fun x => negb (hit x)) (resource_bookmarks m))).

(** *** Every write to the messaging store *)
Inductive write_m :=
| insert_messages (r : messages.row)
| update_messages (target : uuid) (set : messages.row -> messages.row)
| insert_educational_resources (r : educational_resources.row)
| update_educational_resources (target : uuid)
    (set : educational_resources.row -> educational_resources.row)
| delete_educational_resources (target : uuid)
| insert_resource_bookmarks (r : resource_bookmarks.row)
| delete_resource_bookmarks (target : uuid).

Definition execute_m (d : database) (m : messaging) (uid : uuid)
    (w : write_m) : outcome_m :=
  match w with
  | insert_messages r => INSERT_messages d m uid r
  | update_messages t set => UPDATE_messages d m uid t set
  | insert_educational_resources r => INSERT_educational_resources d m uid r
  | update_educational_resources t set =>
      UPDATE_educational_resources d m uid t set
  | delete_educational_resources t => DELETE_educational_resources d m uid t
  | insert_resource_bookmarks r => INSERT_resource_bookmarks d m uid r
  | delete_resource_bookmarks t => DELETE_resource_bookmarks d m uid t
  end.


(** ** Notions of the specification *)

(** The actor [uid] has a profile whose role is [rho]. *)
Definition has_role (d : database) (uid : uuid) (rho : text) : Prop :=
  exists p, In p (user_profiles d)
            /\ user_profiles.id p = uid /\ user_profiles.role p = rho.

(** Some order owned by [uid] whose status is delivered has an item for the
    product [prod]. *)
Definition delivered_item (d : database) (uid : uuid) (prod : uuid) : Prop :=
  exists oi o, In oi (order_items d) /\ In o (orders d)
               /\ orders.id o = order_items.order_id oi
               /\ order_items.product_id oi = prod
               /\ orders.buyer_id o = uid
               /\ orders.status o = "delivered".





(** ** A sample database

    An admin (1), a farmer (2) and two buyers (3, 4), and an account (5)
    that has signed up and has no profile yet; an active and an inactive
    product of the farmer; a delivered and a pending order of buyer 3, the
    delivered one with two units of product 20 at 50.00. *)
Module Sample.
Definition profile (k : uuid) (rho nm : text) : user_profiles.row :=
  user_profiles.mk k rho nm None (Some "en") None None None (Some true)
    None None.

Definition admin := profile 1 "admin" "Asha".
Definition farmer := profile 2 "farmer" "Farid".
Definition buyer := profile 3 "buyer" "Bina".
Definition buyer' := profile 4 "buyer" "Bhanu".

Definition product (k : uuid) (active : bool) : products.row :=
  products.mk k 2 None "Mango pickle" "Traditional recipe" 5000 "kg" 10
    (Some 10) None (Some false) (Some true) None None None (Some active)
    None None.

Definition order (k : uuid) (st : text) : orders.row :=
  orders.mk k 3 2 10000 st "pending" "{}" None None None.

Definition item (k : uuid) (sub : decimal_10_2) : order_items.row :=
  order_items.mk k 30 20 2 5000 sub None.

Definition review (k : uuid) (o : option uuid) (stars : integer)
    : reviews.row :=
  reviews.mk k 20 3 o stars None (Some true) None None.

Definition db : database :=
  mkdb [1; 2; 3; 4; 5]%N
       [admin; farmer; buyer; buyer']
       []
       [product 20 true; product 21 false]
       [order 30 "delivered"; order 31 "pending"]
       [item 40 10000]
       [].

(** The sample database with reviews in it (the migrations and the
    service role write without row-level security). *)
Definition reviewed (rs : list reviews.row) : database := set_reviews db rs.

Definition resource (k : uuid) (published : bool)
    : educational_resources.row :=
  educational_resources.mk k "Packaging" "Packaging" "..." "..."
    "Production" None None None (Some published) (Some 4) None None.

Definition message (k sender receiver : uuid) : messages.row :=
  messages.mk k sender receiver None None "Is it fresh?" None None.
End Sample.

(** ** Further invariants of the schema *)


(** [UNIQUE(product_id, buyer_id, order_id)] on the stored reviews: two
    rows that agree on the three columns, the order being present, are the
    same row. *)
Definition review_keys (d : database) : Prop :=
  forall a b, In a (reviews d) -> In b (reviews d) ->
    reviews.same_key a b = true -> reviews.id a = reviews.id b.

(** [CHECK (role IN ('admin', 'farmer', 'buyer'))] on the stored profiles. *)
Definition role_checks (d : database) : Prop :=
  forall p, In p (user_profiles d) ->
    In (user_profiles.role p) ["admin"; "farmer"; "buyer"].

(** The review [r] after [SET product_id = p]. *)
Definition review_with_product_id (p : uuid) (r : reviews.row) : reviews.row :=
  reviews.mk (reviews.id r) p (reviews.buyer_id r) (reviews.order_id r)
    (reviews.rating r) (reviews.comment r) (reviews.is_verified_purchase r)
    (reviews.created_at r) (reviews.updated_at r).

(** ** The pages

    A page keeps the rows it shows in its state, which is empty when the
    page opens.  A loading function sends its query with the session of
    the signed-in user, and the client library hands back the rows or the
    error; when the query fails the function logs the error and leaves the
    state as it is.  An embedded resource [alias:column (...)] makes the
    query read the referenced table as well.  Column projections are left
    out. *)

(** [.order('created_at', { ascending: false })]: descending, NULLs first
    (the server's default for a descending sort).  Rows with equal
    timestamps are kept in table order; the server leaves their order
    open. *)
Definition not_before (a b : option timestamptz) : bool :=
  match a, b with
  | None, _ => true
  | Some _, None => false
  | Some x, Some y => y <=? x
  end.

Fixpoint insert_desc {A} (key : A -> option timestamptz) (x : A)
    (l : list A) : list A :=
  match l with
  | [] => [x]
  | y :: l' => if not_before (key x) (key y) then x :: l
               else y :: insert_desc key x l'
  end.

Definition order_desc {A} (key : A -> option timestamptz) (l : list A)
    : list A :=
  fold_right (insert_desc key) [] l.

(** A to-one embedded resource: the referenced profile among the profiles
    the session reads, null when it is not among them. *)
Definition embed_profile (profiles : list user_profiles.row) (k : uuid)
    : option user_profiles.row :=
  find (fun p => N.eqb (user_profiles.id p) k) profiles.

(** JavaScript truthiness of a nullable boolean. *)
Definition truthy (b : option bool) : bool :=
  match b with Some true => true | _ => false end.

(** *** Products page *)

(** [loadProducts]:
    [from('products').select(..., farmer:farmer_id (...),
    category:category_id (...)).eq('is_active', true).gt('stock_quantity', 0)];
    [state] is the list of products of the page. *)
Definition loadProducts (d : database) (uid : uuid)
    (state : list products.row) : list products.row :=
  match SELECT_products d uid, SELECT_user_profiles d uid,
        SELECT_product_categories d uid with
  | Rows rows, Rows _, Rows _ =>
      filter (fun p => is_TRUE (products.is_active p)
                       && (0 <? products.stock_quantity p)) rows
  | _, _, _ => state
  end.

(** *** Resources page *)

(** [loadResources]: [.eq('is_published', true).order('created_at', desc)]. *)
Definition loadResources (d : database) (m : messaging) (uid : uuid)
    (state : list educational_resources.row)
    : list educational_resources.row :=
  match SELECT_educational_resources d m uid with
  | Rows rows =>
      order_desc educational_resources.created_at
        (filter (fun r => is_TRUE (educational_resources.is_published r))
                rows)
  | Raised _ => state
  end.

(** [Array.from(new Set(xs))]: the distinct values, each at its first
    occurrence. *)
Fixpoint distinct (seen : list text) (xs : list text) : list text :=
  match xs with
  | [] => []
  | x :: xs' => if IN x seen then distinct seen xs'
                else x :: distinct (x :: seen) xs'
  end.

Definition categories (resources : list educational_resources.row)
    : list text :=
  "all" :: distinct [] (map educational_resources.category resources).

Definition filteredResources (selectedCategory : text)
    (resources : list educational_resources.row)
    : list educational_resources.row :=
  if String.eqb selectedCategory "all" then resources
  else filter (fun r => String.eqb (educational_resources.category r)
                                   selectedCategory) resources.

(** The state of the page that [handleViewResource] reads and sets. *)
Record resources_page := mkpage {
  resources : list educational_resources.row;
  expandedResource : option uuid
}.

(** [view_count + 1] on a nullable count: null counts as 0. *)
Definition plus_one (v : option integer) : option integer :=
  match v with None => Some 1 | Some n => Some (n + 1) end.

(** [handleViewResource]: collapse the resource when it is the expanded one;
    otherwise expand it and, when it is in the list, send
    [update({ view_count: resource.view_count + 1 }).eq('id', resourceId)]
    and add one to the count shown.  The result of the update is not
    inspected. *)
Definition handleViewResource (d : database) (m : messaging) (uid : uuid)
    (s : resources_page) (resourceId : uuid) : messaging * resources_page :=
  if eq_uid (expandedResource s) resourceId
  then (m, mkpage (resources s) None)
  else
    match find (fun r => N.eqb (educational_resources.id r) resourceId)
               (resources s) with
    | None => (m, mkpage (resources s) (Some resourceId))
    | Some resource =>
        let sent :=
          UPDATE_educational_resources d m uid resourceId
            (educational_resources.with_view_count
               (plus_one (educational_resources.view_count resource))) in
        (match sent with Committed_m m' => m' | Rejected_m _ => m end,
         mkpage
           (map (fun r =>
                   if N.eqb (educational_resources.id r) resourceId
                   then educational_resources.with_view_count
                          (plus_one (educational_resources.view_count r)) r
                   else r) (resources s))
           (Some resourceId))
    end.

(** *** Messages page *)

Record loaded_message := mkloaded {
  message : messages.row;
  sender : option user_profiles.row;
  receiver : option user_profiles.row
}.

(** [loadMessages]: the messages with the sender and the receiver embedded,
    [.or(sender_id.eq.uid, receiver_id.eq.uid).order('created_at', desc)]. *)
Definition loadMessages (d : database) (m : messaging) (uid : uuid)
    (state : list loaded_message) : list loaded_message :=
  match SELECT_user_profiles d uid with
  | Rows profiles =>
      order_desc (fun l => messages.created_at (message l))
        (map (fun r =>
                mkloaded r (embed_profile profiles (messages.sender_id r))
                           (embed_profile profiles (messages.receiver_id r)))
             (filter (fun r => N.eqb (messages.sender_id r) uid
                               || N.eqb (messages.receiver_id r) uid)
                     (SELECT_messages d m uid)))
  | Raised _ => state
  end.

(** [m.sender?.id === user.id] *)
Definition is_profile (p : option user_profiles.row) (uid : uuid) : bool :=
  match p with Some x => N.eqb (user_profiles.id x) uid | None => false end.

Definition sentMessages (loaded : list loaded_message) (uid : uuid) :=
  filter (fun l => is_profile (sender l) uid) loaded.

Definition receivedMessages (loaded : list loaded_message) (uid : uuid) :=
  filter (fun l => is_profile (receiver l) uid) loaded.

Definition unreadCount (loaded : list loaded_message) (uid : uuid) : nat :=
  List.length (filter (fun l => negb (truthy (messages.is_read (message l))))
                 (receivedMessages loaded uid)).

(** *** Buyer dashboard *)

Record loaded_order := mkorder {
  order : orders.row;
  farmer : option user_profiles.row
}.

(** [loadOrders]: [.eq('buyer_id', uid).order('created_at', desc).limit(10)],
    with the farmer embedded. *)
Definition loadOrders (d : database) (uid : uuid)
    (state : list loaded_order) : list loaded_order :=
  match SELECT_orders d uid, SELECT_user_profiles d uid with
  | Rows rows, Rows profiles =>
      firstn 10
        (order_desc (fun l => orders.created_at (order l))
           (map (fun o =>
                   mkorder o (embed_profile profiles (orders.farmer_id o)))
                (filter (fun o => N.eqb (orders.buyer_id o) uid) rows)))
  | _, _ => state
  end.

Definition pendingOrders (loaded : list loaded_order) : nat :=
  List.length (filter (fun l => String.eqb (orders.status (order l)) "pending"
                           || String.eqb (orders.status (order l)) "confirmed")
                 loaded).

(** *** Farmer dashboard *)

(** The products query of [loadData],
    [.eq('farmer_id', uid).order('created_at', desc)], and
    [if (productsRes.data) setProducts(productsRes.data)]. *)
Definition loadData_products (d : database) (uid : uuid)
    (state : list products.row) : list products.row :=
  match SELECT_products d uid with
  | Rows rows =>
      order_desc products.created_at
        (filter (fun p => N.eqb (products.farmer_id p) uid) rows)
  | Raised _ => state
  end.

(** The orders query of [loadData],
    [.eq('farmer_id', uid).order('created_at', desc).limit(5)], and
    [if (ordersRes.data) setOrders(ordersRes.data)]. *)
Definition loadData_orders (d : database) (uid : uuid)
    (state : list orders.row) : list orders.row :=
  match SELECT_orders d uid with
  | Rows rows =>
      firstn 5
        (order_desc orders.created_at
           (filter (fun o => N.eqb (orders.farmer_id o) uid) rows))
  | Raised _ => state
  end.

(** [p.stock_quantity <= p.low_stock_threshold]: in the comparison a null
    threshold is the number 0. *)
Definition lowStockProducts (loaded : list products.row)
    : list products.row :=
  filter (fun p => products.stock_quantity p
                   <=? match products.low_stock_threshold p with
                       | Some t => t
                       | None => 0
                       end) loaded.

Definition activeProducts (loaded : list products.row) : nat :=
  List.length (filter (fun p => truthy (products.is_active p)) loaded).

(** *** Admin dashboard *)

(** The counters of the dashboard.  ([totalRevenue], a floating-point sum
    over the rows of the orders query with the same [|| 0], is left
    out.) *)
Record Stats := mkstats {
  totalUsers : nat;
  totalFarmers : nat;
  totalBuyers : nat;
  totalProducts : nat;
  totalOrders : nat
}.

(** [res.count || 0] and [res.data?.length || 0]: the number of rows, 0
    when the query failed. *)
Definition count_or_0 {A} (res : selected A) : nat :=
  match res with
  | Rows rows => List.length rows
  | Raised _ => 0%nat
  end.

(** [.eq('role', rho)] on a read of user_profiles. *)
Definition eq_role (rho : text) (res : selected user_profiles.row)
    : selected user_profiles.row :=
  match res with
  | Rows rows =>
      Rows (filter (fun p => String.eqb (user_profiles.role p) rho) rows)
  | Raised e => Raised e
  end.

(** [loadStats]: the five queries, none of whose errors is inspected. *)
Definition loadStats (d : database) (uid : uuid) : Stats :=
  mkstats
    (count_or_0 (SELECT_user_profiles d uid))
    (count_or_0 (eq_role "farmer" (SELECT_user_profiles d uid)))
    (count_or_0 (eq_role "buyer" (SELECT_user_profiles d uid)))
    (count_or_0 (SELECT_products d uid))
    (count_or_0 (SELECT_orders d uid)).

(** ** Basic facts *)

Lemma IN_spec (x : text) (vs : list text) : IN x vs = true <-> In x vs.
Proof.
  unfold IN. rewrite existsb_exists. split.
  - intros [y [Hy He]]. apply String.eqb_eq in He. now subst.
  - intros H. exists x. split; [assumption | apply String.eqb_refl].
Qed.

Lemma references_spec (k : uuid) (keys : list uuid) :
  references k keys = true <-> In k keys.
Proof.
  unfold references. rewrite existsb_exists. split.
  - intros [y [Hy He]]. apply N.eqb_eq in He. now subst.
  - intros H. exists k. split; [assumption | apply N.eqb_refl].
Qed.

Lemma statement_committed fits policy checks unique fkeys after d' :
  statement fits policy checks unique fkeys after = Committed d' <->
  fits = true /\ policy = true /\ checks = true /\ unique = true
  /\ fkeys = true /\ d' = after.
Proof.
  unfold statement.
  destruct fits, policy, checks, unique, fkeys; simpl; split;
    try discriminate; try (intros H; decompose [and] H; discriminate).
  - intros H. injection H as <-. repeat split.
  - intros H. decompose [and] H. now subst.
Qed.

(** Tactic: turn a committed [statement] into its facts and rewrite the
    resulting database. *)
Ltac committed H :=
  apply statement_committed in H;
  let Hf := fresh "Hfits" in
  let Hp := fresh "Hpolicy" in
  let Hc := fresh "Hchecks" in
  let Hu := fresh "Hunique" in
  let Hk := fresh "Hfkeys" in
  destruct H as [Hf [Hp [Hc [Hu [Hk ->]]]]].

(** Under the primary key, the rows selected by [id = k] are the one row
    with that key. *)
Lemma filter_by_key {A} (key : A -> uuid) (rows : list A) (r : A) :
  NoDup (map key rows) -> In r rows ->
  filter (fun x => N.eqb (key x) (key r)) rows = [r].
Proof.
  induction rows as [| x rows IH]; simpl; intros Hnd Hin; [contradiction |].
  inversion Hnd as [| ? ? Hx Hnd']; subst.
  assert (Hnone : forall y, In y rows -> key y = key x -> False).
  { intros y Hy He. apply Hx. rewrite <- He. now apply in_map. }
  destruct Hin as [-> | Hin].
  - rewrite N.eqb_refl. f_equal.
    clear IH Hnd Hnd' Hx. induction rows as [| y rows IH]; [reflexivity |].
    simpl. destruct (N.eqb_spec (key y) (key r)) as [He | _].
    + exfalso. apply (Hnone y); [now left | exact He].
    + apply IH. intros z Hz. apply Hnone. now right.
  - destruct (N.eqb_spec (key x) (key r)) as [He | _].
    + exfalso. apply (Hnone r Hin). now symmetry.
    + now apply IH.
Qed.


Lemma In_replace {A} (hit : A -> bool) (new old : A) (rows : list A) :
  In old rows -> hit old = true -> In new (replace hit new rows).
Proof.
  intros Hin Hhit. unfold replace. apply in_map_iff.
  exists old. now rewrite Hhit.
Qed.

Lemma In_replace_inv {A} (hit : A -> bool) (new x : A) (rows : list A) :
  In x (replace hit new rows) -> x = new \/ In x rows.
Proof.
  unfold replace. intros H. apply in_map_iff in H as [y [Hy Hin]].
  destruct (hit y); [left; now symmetry | right; now subst].
Qed.

Lemma rating_check_fits r :
  reviews.rating_check r = true -> reviews.fits r = true.
Proof.
  unfold reviews.rating_check, reviews.fits, integer_fits.
  rewrite !andb_true_iff, !Z.leb_le. lia.
Qed.

Lemma same_key_order_present a b :
  reviews.same_key a b = true ->
  exists o, reviews.order_id a = Some o /\ reviews.order_id b = Some o.
Proof.
  unfold reviews.same_key. intros H.
  apply andb_true_iff in H as [_ H].
  destruct (reviews.order_id a) as [x |], (reviews.order_id b) as [y |];
    try discriminate.
  apply N.eqb_eq in H. subst. eauto.
Qed.

Lemma same_key_no_order a b :
  reviews.order_id b = None -> reviews.same_key a b = false.
Proof.
  intros H. destruct (reviews.same_key a b) eqn:E; [| reflexivity].
  apply same_key_order_present in E as [o [_ E]]. congruence.
Qed.

Lemma existsb_false {A} (f : A -> bool) (l : list A) :
  (forall x, In x l -> f x = false) -> existsb f l = false.
Proof.
  intros H. destruct (existsb f l) eqn:E; [| reflexivity].
  apply existsb_exists in E as [x [Hx Hf]]. rewrite (H x Hx) in Hf.
  discriminate.
Qed.









Lemma filter_andb {A} (f g : A -> bool) (l : list A) :
  filter (fun x => f x && g x) l = filter g (filter f l).
Proof.
  induction l as [| x l IH]; [reflexivity |]. simpl.
  destruct (f x); simpl; [destruct (g x) |]; now rewrite IH.
Qed.

(** Under the primary key, [WHERE id = key r] restricted by a USING
    expression selects the row [r] or nothing. *)
Lemma filter_key_using {A} (key : A -> uuid) (qual : A -> bool)
    (rows : list A) (r : A) :
  NoDup (map key rows) -> In r rows ->
  filter (fun x => N.eqb (key x) (key r) && qual x) rows
  = if qual r then [r] else [].
Proof.
  intros Hnd Hin. rewrite filter_andb, (filter_by_key key rows r Hnd Hin).
  simpl. now destruct (qual r).
Qed.






(** The rows an UPDATE or DELETE acts on are stored rows. *)
Lemma target_stored {A} (hit : A -> bool) (rows : list A) o olds :
  filter hit rows = o :: olds -> In o rows /\ hit o = true.
Proof.
  intros E. apply filter_In. rewrite E. now left.
Qed.

(** Case analysis on the rows found by [WHERE id = target]. *)
Ltac targets H o E :=
  match type of H with
  | context [match filter ?h ?rows with _ => _ end] =>
      destruct (filter h rows) as [| o ?olds] eqn:E
  end.

Lemma In_replace_inv_miss {A} (hit : A -> bool) (new x : A) (rows : list A) :
  In x (replace hit new rows) -> x = new \/ (In x rows /\ hit x = false).
Proof.
  unfold replace. intros H. apply in_map_iff in H as [y [Hy Hin]].
  destruct (hit y) eqn:E; [left; now symmetry | right; now subst].
Qed.

Lemma In_replace_miss {A} (hit : A -> bool) (new x : A) (rows : list A) :
  In x rows -> hit x = false -> In x (replace hit new rows).
Proof.
  intros Hin Hmiss. unfold replace. apply in_map_iff. exists x.
  now rewrite Hmiss.
Qed.

Lemma key_injective {A} (key : A -> uuid) (rows : list A) (a b : A) :
  NoDup (map key rows) -> In a rows -> In b rows -> key a = key b -> a = b.
Proof.
  intros Hnd Ha Hb He.
  pose proof (filter_by_key key rows a Hnd Ha) as Hf.
  assert (Hin : In b (filter (fun x => N.eqb (key x) (key a)) rows)).
  { apply filter_In. split; [exact Hb |]. apply N.eqb_eq. now symmetry. }
  rewrite Hf in Hin. destruct Hin as [-> | []]. reflexivity.
Qed.

Lemma same_key_sym a b : reviews.same_key a b = reviews.same_key b a.
Proof.
  unfold reviews.same_key.
  rewrite (N.eqb_sym (reviews.product_id a)), (N.eqb_sym (reviews.buyer_id a)).
  destruct (reviews.order_id a) as [x |], (reviews.order_id b) as [y |];
    try reflexivity.
  now rewrite (N.eqb_sym x).
Qed.

Lemma reviews_unique_no_collision others r x :
  reviews_unique others r = true -> In x others ->
  reviews.same_key x r = false.
Proof.
  unfold reviews_unique. intros H Hx.
  apply andb_true_iff in H as [_ H]. apply negb_true_iff in H.
  destruct (reviews.same_key x r) eqn:E; [| reflexivity].
  assert (He : existsb (fun y => reviews.same_key y r) others = true).
  { apply existsb_exists. exists x. auto. }
  rewrite He in H. discriminate.
Qed.

Lemma key_absent {A} (key : A -> uuid) (k : uuid) (rows : list A) :
  negb (existsb (fun x => N.eqb (key x) k) rows) = true <->
  ~ In k (map key rows).
Proof.
  rewrite negb_true_iff. split.
  - intros H Hin. apply in_map_iff in Hin as [x [Hx Hin]].
    assert (He : existsb (fun y => N.eqb (key y) k) rows = true).
    { apply existsb_exists. exists x. split; [exact Hin | now apply N.eqb_eq]. }
    rewrite He in H. discriminate.
  - intros H. apply existsb_false. intros x Hx. apply N.eqb_neq.
    intros He. apply H. rewrite <- He. now apply in_map.
Qed.

Lemma statement_m_committed fits policy checks unique fkeys after m' :
  statement_m fits policy checks unique fkeys after = Committed_m m' <->
  fits = true /\ policy = true /\ checks = true /\ unique = true
  /\ fkeys = true /\ m' = after.
Proof.
  unfold statement_m.
  destruct fits, policy, checks, unique, fkeys; simpl; split;
    try discriminate; try (intros H; decompose [and] H; discriminate).
  - intros H. injection H as <-. repeat split.
  - intros H. decompose [and] H. now subst.
Qed.

Ltac committed_m H :=
  apply statement_m_committed in H;
  let Hf := fresh "Hfits" in
  let Hp := fresh "Hpolicy" in
  let Hc := fresh "Hchecks" in
  let Hu := fresh "Hunique" in
  let Hk := fresh "Hfkeys" in
  destruct H as [Hf [Hp [Hc [Hu [Hk ->]]]]].

Lemma eq_uid_spec k uid : eq_uid k uid = true <-> k = Some uid.
Proof.
  destruct k as [x |]; simpl; [| intuition congruence].
  rewrite N.eqb_eq. intuition congruence.
Qed.

Lemma In_distinct seen xs c :
  In c (distinct seen xs) <-> In c xs /\ ~ In c seen.
Proof.
  revert seen. induction xs as [| x xs IH]; intros seen; simpl.
  - tauto.
  - destruct (IN x seen) eqn:E.
    + apply IN_spec in E. rewrite IH. split.
      * intros [H1 H2]. auto.
      * intros [[<- | H1] H2]; [contradiction | auto].
    + assert (Hx : ~ In x seen).
      { intros H. apply IN_spec in H. congruence. }
      simpl. rewrite IH. simpl. split.
      * intros [<- | [H1 H2]]; [auto | split; [auto | tauto]].
      * intros [[<- | H1] H2]; [now left |].
        destruct (string_dec x c) as [-> | Hne]; [now left | right].
        split; [exact H1 |]. intros [H | H]; [congruence | contradiction].
Qed.

Lemma NoDup_distinct seen xs : NoDup (distinct seen xs).
Proof.
  revert seen. induction xs as [| x xs IH]; intros seen; simpl.
  - constructor.
  - destruct (IN x seen); [apply IH |]. constructor; [| apply IH].
    rewrite In_distinct. simpl. tauto.
Qed.

Lemma filter_all {A} (f : A -> bool) (l : list A) :
  (forall x, In x l -> f x = true) -> filter f l = l.
Proof.
  induction l as [| x l IH]; simpl; intros H; [reflexivity |].
  rewrite (H x (or_introl eq_refl)). f_equal. apply IH.
  intros y Hy. apply H. now right.
Qed.

(** ** The expansion of the policies

    "Admins can read all profiles" is a policy of user_profiles that
    sub-selects user_profiles: the expansion of a read of user_profiles
    comes back to the table while it is on the list, at the second level at
    the latest, and the depth bound is never reached. *)

Lemma sub_SELECT_user_profiles_raises n activeRIRs d uid :
  sub_SELECT_user_profiles (S (S n)) activeRIRs d uid
  = Raised invalid_object_definition.
Proof.
  cbn [sub_SELECT_user_profiles].
  destruct (active rel_user_profiles activeRIRs); reflexivity.
Qed.

Lemma SELECT_user_profiles_raises d uid :
  SELECT_user_profiles d uid = Raised invalid_object_definition.
Proof. apply sub_SELECT_user_profiles_raises. Qed.

(** So does every statement whose policies sub-select user_profiles. *)
Lemma with_user_profiles_raises {R} t activeRIRs d uid
    (raise : sqlstate -> R) k :
  with_user_profiles t activeRIRs d uid raise k
  = raise invalid_object_definition.
Proof.
  unfold with_user_profiles, expansion_depth.
  destruct (active t activeRIRs); [reflexivity |].
  now rewrite sub_SELECT_user_profiles_raises.
Qed.

Lemma sub_SELECT_orders_raises activeRIRs d uid :
  sub_SELECT_orders activeRIRs d uid = Raised invalid_object_definition.
Proof. apply with_user_profiles_raises. Qed.

(** And every statement whose policies sub-select orders. *)
Lemma with_orders_raises {R} t activeRIRs d uid (raise : sqlstate -> R) k :
  with_orders t activeRIRs d uid raise k = raise invalid_object_definition.
Proof.
  unfold with_orders. destruct (active t activeRIRs); [reflexivity |].
  now rewrite sub_SELECT_orders_raises.
Qed.

Lemma SELECT_products_raises d uid :
  SELECT_products d uid = Raised invalid_object_definition.
Proof. apply with_user_profiles_raises. Qed.

Lemma SELECT_orders_raises d uid :
  SELECT_orders d uid = Raised invalid_object_definition.
Proof. apply sub_SELECT_orders_raises. Qed.

Lemma INSERT_reviews_raises d uid r :
  INSERT_reviews d uid r = Rejected invalid_object_definition.
Proof. apply with_user_profiles_raises. Qed.

Lemma INSERT_orders_raises d uid r :
  INSERT_orders d uid r = Rejected invalid_object_definition.
Proof. apply with_user_profiles_raises. Qed.


Lemma INSERT_order_items_raises d uid r :
  INSERT_order_items d uid r = Rejected invalid_object_definition.
Proof. apply with_orders_raises. Qed.

Lemma UPDATE_user_profiles_raises d uid t r :
  UPDATE_user_profiles d uid t r = Rejected invalid_object_definition.
Proof. apply with_user_profiles_raises. Qed.

Lemma UPDATE_educational_resources_raises d m uid t set :
  UPDATE_educational_resources d m uid t set
  = Rejected_m invalid_object_definition.
Proof. apply with_user_profiles_raises. Qed.


(** The writes to the database, but for the INSERT of a profile and the
    UPDATE of a review. *)
Lemma execute_raises d uid w :
  match w with
  | insert_user_profiles _ | update_reviews _ _ => True
  | _ => execute d uid w = Rejected invalid_object_definition
  end.
Proof.
  destruct w; try exact I; cbn [execute];
    try apply with_user_profiles_raises; apply with_orders_raises.
Qed.

Lemma execute_m_raises d m uid w :
  match w with
  | insert_educational_resources _ | update_educational_resources _ _
  | delete_educational_resources _ =>
      execute_m d m uid w = Rejected_m invalid_object_definition
  | _ => True
  end.
Proof.
  destruct w; try exact I; cbn [execute_m]; apply with_user_profiles_raises.
Qed.

(** A committed write to the database is one of the two. *)
Lemma committed_cases d uid w d' :
  execute d uid w = Committed d' ->
  (exists r, w = insert_user_profiles r
             /\ INSERT_user_profiles d uid r = Committed d')
  \/ (exists t r, w = update_reviews t r
                  /\ UPDATE_reviews d uid t r = Committed d').
Proof.
  intros Hex. pose proof (execute_raises d uid w) as Hr.
  destruct w; try (rewrite Hr in Hex; discriminate).
  - left. eauto.
  - right. eauto.
Qed.

(** Case analysis on a committed UPDATE of reviews: no row found, or the
    steps of the statement passed. *)
Ltac reviews_updated H o E :=
  unfold UPDATE_reviews in H;
  destruct (negb (reviews.fits _)) in H; [discriminate H |];
  targets H o E.


Lemma committed_writes_keep_reviews_or_profiles d uid w d' :
  execute d uid w = Committed d' ->
  (exists r, w = insert_user_profiles r /\ reviews d' = reviews d
             /\ user_profiles d' = r :: user_profiles d)
  \/ (exists t r, w = update_reviews t r
                  /\ user_profiles d' = user_profiles d).
Proof.
  intros Hex.
  destruct (committed_cases d uid w d' Hex) as [[r [-> Hc]] | [t [r [-> Hc]]]].
  - left. exists r. unfold INSERT_user_profiles in Hc. committed Hc.
    repeat split.
  - right. exists t, r. split; [reflexivity |]. reviews_updated Hc o E.
    + now injection Hc as <-.
    + now committed Hc.
Qed.

(** The sample database. *)
Lemma Sample_profile_keys : NoDup (map user_profiles.id (user_profiles Sample.db)).
Proof. simpl. repeat constructor; simpl; intuition discriminate. Qed.



Lemma Sample_buyer : has_role Sample.db 3 "buyer".
Proof. exists Sample.buyer. simpl. auto. Qed.

Lemma Sample_admin : has_role Sample.db 1 "admin".
Proof. exists Sample.admin. simpl. auto. Qed.

Lemma Sample_delivered_item : delivered_item Sample.db 3 20.
Proof.
  exists (Sample.item 40 10000), (Sample.order 30 "delivered").
  simpl. repeat split; auto.
Qed.

(** ** Accounts *)

(** C7.  No account is read by anybody.  Every SELECT on user_profiles
    raises "infinite recursion detected in policy for relation
    user_profiles": the admin of the sample database does not receive the
    rows, and buyer 3 does not receive the row it owns. *)
Theorem account_read_raises :
  (forall d uid,
      SELECT_user_profiles d uid = Raised invalid_object_definition)
  /\ has_role Sample.db 1 "admin"
  /\ SELECT_user_profiles Sample.db 1 = Raised invalid_object_definition
  /\ In Sample.buyer (user_profiles Sample.db)
  /\ SELECT_user_profiles Sample.db 3 = Raised invalid_object_definition.
Proof.
  split; [exact SELECT_user_profiles_raises |].
  split; [exact Sample_admin |].
  split; [reflexivity |]. split; [simpl; auto | reflexivity].
Qed.

(** C1.  An UPDATE of its own profile by which an account changes its role
    is refused: the statement is aborted while its policies are expanded,
    with "infinite recursion detected in policy", and so is every other
    UPDATE of the row by its owner. *)
Theorem own_update_keeps_role :
  forall d uid old new,
    In old (user_profiles d) ->
    user_profiles.id old = uid ->
    user_profiles.role new <> user_profiles.role old ->
    UPDATE_user_profiles d uid (user_profiles.id old) new
    = Rejected invalid_object_definition
    /\ (forall new' d',
          UPDATE_user_profiles d uid (user_profiles.id old) new'
          <> Committed d').
Proof.
  intros d uid old new _ _ _. split.
  - apply UPDATE_user_profiles_raises.
  - intros new' d'. rewrite UPDATE_user_profiles_raises. discriminate.
Qed.

Lemma own_update_keeps_role_witness :
  UPDATE_user_profiles Sample.db 3 3 (Sample.profile 3 "admin" "Bina")
  = Rejected invalid_object_definition.
Proof.
  apply (own_update_keeps_role Sample.db 3 Sample.buyer
           (Sample.profile 3 "admin" "Bina")).
  - simpl. auto.
  - reflexivity.
  - discriminate.
Defined.

(** ** Reviews *)

(** C2.  No review is inserted.  Buyer 3 of the sample database has the
    role buyer and a delivered order with an item for product 20, and
    inserts a review of that product under its own key: the statement is
    aborted with "infinite recursion detected in policy", as is every
    INSERT on reviews. *)
Theorem review_insert_raises :
  (forall d uid r, INSERT_reviews d uid r = Rejected invalid_object_definition)
  /\ reviews.buyer_id (Sample.review 50 (Some 30%N) 5) = 3%N
  /\ has_role Sample.db 3 "buyer"
  /\ delivered_item Sample.db 3
       (reviews.product_id (Sample.review 50 (Some 30%N) 5))
  /\ INSERT_reviews Sample.db 3 (Sample.review 50 (Some 30%N) 5)
     = Rejected invalid_object_definition.
Proof.
  split; [exact INSERT_reviews_raises |].
  split; [reflexivity |]. split; [exact Sample_buyer |].
  split; [exact Sample_delivered_item | reflexivity].
Qed.

(** C5.  The first INSERT of a review by the buyer of a delivered order is
    not accepted, and on a table that holds this review an INSERT for the
    same product, buyer and order is aborted with "infinite recursion
    detected in policy", not with a uniqueness violation: the statement
    does not come to the unique index. *)
Theorem repeated_review_insert_raises :
  INSERT_reviews Sample.db 3 (Sample.review 50 (Some 30%N) 5)
  = Rejected invalid_object_definition
  /\ reviews.same_key (Sample.review 50 (Some 30%N) 5)
       (Sample.review 51 (Some 30%N) 5) = true
  /\ INSERT_reviews (Sample.reviewed [Sample.review 50 (Some 30%N) 5]) 3
       (Sample.review 51 (Some 30%N) 5)
     = Rejected invalid_object_definition
  /\ INSERT_reviews (Sample.reviewed [Sample.review 50 (Some 30%N) 5]) 3
       (Sample.review 51 (Some 30%N) 5)
     <> Rejected unique_violation.
Proof.
  split; [reflexivity |]. split; [reflexivity |]. split; [reflexivity |].
  discriminate.
Qed.

(** C9.  A review whose order reference is absent, or names another order
    of the buyer than the delivered one, is not inserted either: buyer 3
    has a delivered order with product 20, and both statements are aborted
    with "infinite recursion detected in policy". *)
Theorem review_insert_without_order_raises :
  has_role Sample.db 3 "buyer"
  /\ delivered_item Sample.db 3 20
  /\ INSERT_reviews Sample.db 3 (Sample.review 50 None 5)
     = Rejected invalid_object_definition
  /\ INSERT_reviews Sample.db 3 (Sample.review 50 (Some 31%N) 5)
     = Rejected invalid_object_definition.
Proof.
  split; [exact Sample_buyer |]. split; [exact Sample_delivered_item |].
  split; reflexivity.
Qed.

(** C10.  Two INSERTs of a review without order reference by buyer 3 for
    product 20: the first is aborted with "infinite recursion detected in
    policy", and so is the second, on the table as it is and on a table
    that holds the first review. *)
Theorem reviews_without_order_raise :
  INSERT_reviews Sample.db 3 (Sample.review 50 None 5)
  = Rejected invalid_object_definition
  /\ INSERT_reviews Sample.db 3 (Sample.review 51 None 4)
     = Rejected invalid_object_definition
  /\ INSERT_reviews (Sample.reviewed [Sample.review 50 None 5]) 3
       (Sample.review 51 None 4)
     = Rejected invalid_object_definition.
Proof. repeat split. Qed.

(** ** Integrity checks *)



Example rating_out_of_range :
  UPDATE_reviews (Sample.reviewed [Sample.review 50 (Some 30%N) 5]) 3 50
    (Sample.review 50 (Some 30%N) 6)
  = Rejected check_violation.
Proof. reflexivity. Qed.

Example rating_beyond_integer :
  UPDATE_reviews (Sample.reviewed [Sample.review 50 (Some 30%N) 5]) 3 77
    (Sample.review 77 (Some 30%N) 2147483648)
  = Rejected numeric_value_out_of_range.
Proof. reflexivity. Qed.

(** ** Orders *)



Example delivered_order_not_reopened :
  UPDATE_orders Sample.db 2 30 (Sample.order 30 "pending")
  = Rejected invalid_object_definition.
Proof. reflexivity. Qed.

(** C6.  No order is placed.  Buyer 3 of the sample database orders two
    units at 50.00: the INSERT on orders is aborted with "infinite
    recursion detected in policy", and so is the INSERT of the item into
    an order of the buyer; no order item results. *)
Theorem order_placement_raises :
  (forall d uid r, INSERT_orders d uid r = Rejected invalid_object_definition)
  /\ (forall d uid r,
        INSERT_order_items d uid r = Rejected invalid_object_definition)
  /\ has_role Sample.db 3 "buyer"
  /\ INSERT_orders Sample.db 3 (Sample.order 32 "pending")
     = Rejected invalid_object_definition
  /\ INSERT_order_items Sample.db 3
       (order_items.mk 41 31 20 2 5000 10000 None)
     = Rejected invalid_object_definition.
Proof.
  split; [exact INSERT_orders_raises |].
  split; [exact INSERT_order_items_raises |].
  split; [exact Sample_buyer |]. split; reflexivity.
Qed.

(** ** Products *)

(** C4.  No product is read by anybody.  Product 21 of the sample database
    is inactive and belongs to farmer 2: the SELECT of the farmer and the
    SELECT of the admin are aborted with "infinite recursion detected in
    policy" and return no row, as is the SELECT of a buyer, whose Products
    page stays empty. *)
Theorem product_read_raises :
  (forall d uid, SELECT_products d uid = Raised invalid_object_definition)
  /\ In (Sample.product 21 false) (products Sample.db)
  /\ products.is_active (Sample.product 21 false) = Some false
  /\ products.farmer_id (Sample.product 21 false) = 2%N
  /\ SELECT_products Sample.db 2 = Raised invalid_object_definition
  /\ has_role Sample.db 1 "admin"
  /\ SELECT_products Sample.db 1 = Raised invalid_object_definition
  /\ has_role Sample.db 3 "buyer"
  /\ SELECT_products Sample.db 3 = Raised invalid_object_definition
  /\ loadProducts Sample.db 3 [] = [].
Proof.
  split; [exact SELECT_products_raises |].
  split; [simpl; auto |]. repeat (split; [reflexivity |]).
  split; [exact Sample_admin |]. split; [reflexivity |].
  split; [exact Sample_buyer |]. split; reflexivity.
Qed.

(** ** Policies that select from user_profiles *)

(** X1.  Whatever the stored rows and whoever is signed in, the statements
    whose policies sub-select user_profiles, directly or through orders,
    are aborted with "infinite recursion detected in policy": every read
    of user_profiles, product_categories, products, orders, order_items
    and educational_resources, and every write but the INSERT of a
    profile, the UPDATE of a review and the writes to messages and
    bookmarks.  The reviews are read in full by every session. *)
Theorem policy_recursion :
  forall d m uid,
    SELECT_user_profiles d uid = Raised invalid_object_definition
    /\ SELECT_product_categories d uid = Raised invalid_object_definition
    /\ SELECT_products d uid = Raised invalid_object_definition
    /\ SELECT_orders d uid = Raised invalid_object_definition
    /\ SELECT_order_items d uid = Raised invalid_object_definition
    /\ SELECT_educational_resources d m uid
       = Raised invalid_object_definition
    /\ (forall w,
          match w with
          | insert_user_profiles _ | update_reviews _ _ => True
          | _ => execute d uid w = Rejected invalid_object_definition
          end)
    /\ (forall w,
          match w with
          | insert_educational_resources _
          | update_educational_resources _ _
          | delete_educational_resources _ =>
              execute_m d m uid w = Rejected_m invalid_object_definition
          | _ => True
          end)
    /\ SELECT_reviews d uid = reviews d.
Proof.
  intros d m uid.
  split; [apply SELECT_user_profiles_raises |].
  split; [apply with_user_profiles_raises |].
  split; [apply SELECT_products_raises |].
  split; [apply SELECT_orders_raises |].
  split; [apply with_orders_raises |].
  split; [apply with_user_profiles_raises |].
  split; [apply execute_raises |].
  split; [apply execute_m_raises |].
  unfold SELECT_reviews. now apply filter_all.
Qed.

(** ** Primary keys *)



(** ** Referential integrity *)









(** ** Roles and profiles under every write *)

(** X4.  No write changes the role of an account that has a profile, whoever
    issues it and whatever it writes: an account keeps the roles it has and
    gains no other.  (Nor is a profile ever removed.) *)
Theorem writes_keep_roles :
  forall d uid w d',
    NoDup (map user_profiles.id (user_profiles d)) ->
    execute d uid w = Committed d' ->
    forall k rho,
      In k (map user_profiles.id (user_profiles d)) ->
      (has_role d' k rho <-> has_role d k rho).
Proof.
  intros d uid w d' Hnd Hex k rho Hk.
  destruct (committed_writes_keep_reviews_or_profiles d uid w d' Hex)
    as [[r [-> [_ Hp]]] | [t [r [_ Hp]]]].
  - (* INSERT: the new profile has a fresh key *)
    cbn [execute] in Hex. unfold INSERT_user_profiles in Hex. committed Hex.
    unfold has_role; simpl. split.
    + intros [p [[<- | Hin] [Hi Hr]]].
      * exfalso. apply key_absent in Hunique. congruence.
      * exists p. auto.
    + intros [p [Hin Hrest]]. exists p. auto.
  - unfold has_role. now rewrite Hp.
Qed.

Lemma writes_keep_roles_witness :
  has_role
    (set_user_profiles Sample.db
       (Sample.profile 5 "admin" "Esha" :: user_profiles Sample.db))
    3 "admin"
  <-> has_role Sample.db 3 "admin".
Proof.
  apply (writes_keep_roles Sample.db 5
           (insert_user_profiles (Sample.profile 5 "admin" "Esha"))).
  - exact Sample_profile_keys.
  - reflexivity.
  - simpl. auto.
Defined.

(** X5.  The CHECK on the role column is an invariant of the writes. *)
Lemma writes_keep_role_checks d uid w d' :
  role_checks d -> execute d uid w = Committed d' -> role_checks d'.
Proof.
  intros Hrc Hex.
  destruct (committed_writes_keep_reviews_or_profiles d uid w d' Hex)
    as [[r [-> [_ Hp]]] | [t [r [_ Hp]]]].
  - cbn [execute] in Hex. unfold INSERT_user_profiles in Hex. committed Hex.
    intros p [<- | Hin]; [| now apply Hrc]. now apply IN_spec.
  - unfold role_checks. now rewrite Hp.
Qed.

Lemma writes_keep_role_checks_witness :
  role_checks
    (set_user_profiles Sample.db
       (Sample.profile 5 "farmer" "Esha" :: user_profiles Sample.db)).
Proof.
  apply (writes_keep_role_checks Sample.db 5
           (insert_user_profiles (Sample.profile 5 "farmer" "Esha"))).
  - intros p Hp. simpl in Hp.
    repeat (destruct Hp as [<- | Hp]; [simpl; auto |]). contradiction.
  - reflexivity.
Defined.

(** ** Uniqueness of reviews under every write *)

(** X6.  UNIQUE(product_id, buyer_id, order_id) is an invariant: after any write
    no two stored reviews name the same product, buyer and order.  An
    UPDATE of a review is checked against the other rows like an INSERT. *)
Theorem writes_keep_review_keys :
  forall d uid w d',
    review_keys d -> execute d uid w = Committed d' -> review_keys d'.
Proof.
  intros d uid w d' Hinv Hex.
  destruct (committed_writes_keep_reviews_or_profiles d uid w d' Hex)
    as [[r [-> [Hrv _]]] | [t [r [-> _]]]].
  - unfold review_keys. now rewrite Hrv.
  - cbn [execute] in Hex. reviews_updated Hex o E.
    { now injection Hex as <-. }
    committed Hex. intros a b Ha Hb Hk. simpl in Ha, Hb.
    apply In_replace_inv_miss in Ha, Hb.
    assert (Hfree : forall x,
               In x (reviews d) ->
               (N.eqb (reviews.id x) t
                && Buyers_can_update_own_reviews uid x) = false ->
               reviews.same_key x (reviews.with_id t r) = false).
    { intros x Hx Hmiss.
      apply (reviews_unique_no_collision _ _ x Hunique).
      apply filter_In. split; [exact Hx |]. now rewrite Hmiss. }
    destruct Ha as [-> | [Ha Hma]], Hb as [-> | [Hb Hmb]]; try reflexivity.
    + rewrite same_key_sym, (Hfree b Hb Hmb) in Hk. discriminate.
    + rewrite (Hfree a Ha Hma) in Hk. discriminate.
    + now apply Hinv.
Qed.

Lemma writes_keep_review_keys_witness :
  review_keys
    (Sample.reviewed [Sample.review 50 (Some 30%N) 4;
                      Sample.review 51 (Some 31%N) 3]).
Proof.
  apply (writes_keep_review_keys
           (Sample.reviewed [Sample.review 50 (Some 30%N) 5;
                             Sample.review 51 (Some 31%N) 3]) 3
           (update_reviews 50 (Sample.review 50 (Some 30%N) 4))).
  - intros a b Ha Hb Hk. simpl in Ha, Hb.
    destruct Ha as [<- | [<- | []]], Hb as [<- | [<- | []]];
      try reflexivity; discriminate.
  - reflexivity.
Defined.
(** ** Registration *)

(** X7.  Sign-up.  A profile can be inserted only under the key of the session,
    and only once.  An authenticated account that has no profile yet may
    register with any of the three roles, admin included; the role gives
    it nothing to read: its SELECT on user_profiles is aborted with
    "infinite recursion detected in policy" afterwards as before. *)
Theorem self_registration :
  forall d uid r,
    (user_profiles.id r <> uid ->
     INSERT_user_profiles d uid r = Rejected insufficient_privilege)
    /\ (In (user_profiles.id r) (map user_profiles.id (user_profiles d)) ->
        exists e, INSERT_user_profiles d uid r = Rejected e)
    /\ (user_profiles.id r = uid ->
        In uid (auth_users d) ->
        ~ In uid (map user_profiles.id (user_profiles d)) ->
        In (user_profiles.role r) ["admin"; "farmer"; "buyer"] ->
        INSERT_user_profiles d uid r
        = Committed (set_user_profiles d (r :: user_profiles d))
        /\ SELECT_user_profiles (set_user_profiles d (r :: user_profiles d))
             uid
           = Raised invalid_object_definition).
Proof.
  intros d uid r. split; [| split].
  - intros Hne. unfold INSERT_user_profiles, statement,
      Users_can_insert_own_profile. simpl.
    destruct (N.eqb_spec uid (user_profiles.id r)) as [E | _];
      [congruence | reflexivity].
  - intros Hin. unfold INSERT_user_profiles, statement. simpl.
    destruct (Users_can_insert_own_profile uid r); simpl; [| eauto].
    destruct (user_profiles.role_check r); simpl; [| eauto].
    destruct (negb (existsb _ (user_profiles d))) eqn:E; simpl; [| eauto].
    apply key_absent in E. contradiction.
  - intros Hid Hauth Hnew Hrole. split.
    + apply statement_committed. repeat split.
      * unfold Users_can_insert_own_profile. apply N.eqb_eq. congruence.
      * now apply IN_spec.
      * apply key_absent. congruence.
      * apply references_spec. congruence.
    + apply SELECT_user_profiles_raises.
Qed.

Lemma self_registration_witness :
  INSERT_user_profiles Sample.db 5 (Sample.profile 5 "admin" "Esha")
  = Committed
      (set_user_profiles Sample.db
         (Sample.profile 5 "admin" "Esha" :: user_profiles Sample.db))
  /\ SELECT_user_profiles
       (set_user_profiles Sample.db
          (Sample.profile 5 "admin" "Esha" :: user_profiles Sample.db)) 5
     = Raised invalid_object_definition.
Proof.
  destruct (self_registration Sample.db 5 (Sample.profile 5 "admin" "Esha"))
    as [_ [_ H]].
  apply H.
  - reflexivity.
  - simpl. auto 10.
  - simpl. intuition discriminate.
  - simpl. auto.
Defined.

(** ** Product writes *)



Example own_product_not_unlisted :
  UPDATE_products Sample.db 2 20 (Sample.product 20 false)
  = Rejected invalid_object_definition.
Proof. reflexivity. Qed.

(** ** Reviews under UPDATE *)

(** X15.  The purchase gate guards INSERT only.  The author of a review can move
    it to any stored product with an UPDATE, bought or not: the policy of
    UPDATE asks for the author and nothing else.  The reviews of the other
    buyers are out of reach of the statement. *)
Theorem review_update_rule :
  forall d uid,
    (forall t r d' x,
        UPDATE_reviews d uid t r = Committed d' ->
        reviews.buyer_id x <> uid ->
        (In x (reviews d') <-> In x (reviews d)))
    /\ (forall old p,
          NoDup (map reviews.id (reviews d)) ->
          In old (reviews d) ->
          reviews.buyer_id old = uid ->
          reviews.checks old = true ->
          In p (map products.id (products d)) ->
          (forall x, In x (reviews d) ->
             reviews.id x <> reviews.id old ->
             reviews.same_key x (review_with_product_id p old) = false) ->
          exists d',
            UPDATE_reviews d uid (reviews.id old)
              (review_with_product_id p old) = Committed d'
            /\ In (review_with_product_id p old) (reviews d')).
Proof.
  intros d uid. split.
  - intros t r d' x Hex Hother. reviews_updated Hex o E.
    { now injection Hex as <-. }
    committed Hex. unfold Buyers_can_update_own_reviews in Hpolicy.
    apply N.eqb_eq in Hpolicy. simpl. split.
    + intros H. apply In_replace_inv in H as [-> | H];
        [contradiction | exact H].
    + intros H. apply In_replace_miss; [exact H |].
      apply andb_false_iff. right.
      unfold Buyers_can_update_own_reviews. now apply N.eqb_neq.
  - intros old p Hnd Hin Hown Hchk Hp Hfree.
    set (r := review_with_product_id p old).
    assert (Hhit : Buyers_can_update_own_reviews uid old = true).
    { unfold Buyers_can_update_own_reviews. now apply N.eqb_eq. }
    assert (Hfits : reviews.fits (reviews.with_id (reviews.id old) r) = true).
    { apply rating_check_fits. exact Hchk. }
    eexists. split.
    + unfold UPDATE_reviews. rewrite Hfits. cbn [negb].
      rewrite (filter_key_using reviews.id
                 (Buyers_can_update_own_reviews uid) (reviews d) old
                 Hnd Hin), Hhit.
      apply statement_committed. repeat split.
      * exact Hhit.
      * exact Hchk.
      * unfold reviews_unique. apply andb_true_iff.
        split; apply negb_true_iff, existsb_false; intros x Hx;
          apply filter_In in Hx as [Hx Hmiss];
          apply negb_true_iff in Hmiss;
          assert (Hne : reviews.id x <> reviews.id old)
            by (intros He;
                assert (x = old)
                  by (now apply (key_injective reviews.id (reviews d)));
                subst x; rewrite N.eqb_refl, Hhit in Hmiss; discriminate).
        -- now apply N.eqb_neq.
        -- now apply Hfree.
      * simpl. rewrite andb_true_r. unfold fk_upd.
        rewrite (proj2 (references_spec _ _) Hp), N.eqb_refl, orb_true_r.
        simpl. destruct (reviews.order_id old) as [k |]; simpl;
          [now rewrite N.eqb_refl | reflexivity].
    + simpl. apply (In_replace _ _ old); [exact Hin |].
      now rewrite N.eqb_refl, Hhit.
Qed.

Lemma review_update_rule_witness :
  exists d',
    UPDATE_reviews (Sample.reviewed [Sample.review 50 (Some 30%N) 5]) 3
      50 (review_with_product_id 21 (Sample.review 50 (Some 30%N) 5))
    = Committed d'
    /\ In (review_with_product_id 21 (Sample.review 50 (Some 30%N) 5))
          (reviews d').
Proof.
  destruct (review_update_rule
              (Sample.reviewed [Sample.review 50 (Some 30%N) 5]) 3)
    as [_ H].
  apply (H (Sample.review 50 (Some 30%N) 5) 21%N); try reflexivity.
  - repeat constructor. simpl. tauto.
  - simpl. auto.
  - simpl. auto.
  - intros x [<- | []] Hne. now contradiction Hne.
Defined.

(** X28.  Uniqueness at work.  An UPDATE by which the author moves a review
    onto the product, buyer and order of another stored review is rejected
    as a uniqueness violation.  An UPDATE that clears the order reference
    is committed whatever the other reviews are: rows without order
    reference never collide, so any number of them can stand for one
    product and buyer. *)
Theorem review_update_uniqueness :
  forall d uid old,
    NoDup (map reviews.id (reviews d)) ->
    In old (reviews d) ->
    reviews.buyer_id old = uid ->
    reviews.checks old = true ->
    (forall other new,
        In other (reviews d) ->
        reviews.id other <> reviews.id old ->
        reviews.buyer_id new = uid ->
        reviews.checks new = true ->
        reviews.same_key other new = true ->
        UPDATE_reviews d uid (reviews.id old) new = Rejected unique_violation)
    /\ (exists d',
          UPDATE_reviews d uid (reviews.id old)
            (reviews.with_order_id None old) = Committed d'
          /\ In (reviews.with_order_id None old) (reviews d')
          /\ (forall x, In x (reviews d) ->
                reviews.id x <> reviews.id old -> In x (reviews d'))).
Proof.
  intros d uid old Hnd Hin Hown Hchk.
  assert (Hhit : Buyers_can_update_own_reviews uid old = true).
  { unfold Buyers_can_update_own_reviews. now apply N.eqb_eq. }
  assert (Hmiss : forall x, In x (reviews d) ->
            reviews.id x <> reviews.id old ->
            N.eqb (reviews.id x) (reviews.id old)
            && Buyers_can_update_own_reviews uid x = false).
  { intros x _ Hne. apply andb_false_iff. left. now apply N.eqb_neq. }
  split.
  - intros other new Hother Hne Hnew Hchk' Hkey.
    unfold UPDATE_reviews.
    change (reviews.fits (reviews.with_id (reviews.id old) new))
      with (reviews.fits new).
    rewrite (rating_check_fits new Hchk'). cbn [negb].
    rewrite (filter_key_using reviews.id
               (Buyers_can_update_own_reviews uid) (reviews d) old
               Hnd Hin), Hhit.
    change (reviews.checks (reviews.with_id (reviews.id old) new))
      with (reviews.checks new).
    change (Buyers_can_update_own_reviews uid
              (reviews.with_id (reviews.id old) new))
      with (N.eqb (reviews.buyer_id new) uid).
    rewrite Hchk', (proj2 (N.eqb_eq _ _) Hnew).
    assert (Hcol : existsb
              (fun x => reviews.same_key x
                          (reviews.with_id (reviews.id old) new))
              (filter (fun x =>
                         negb (N.eqb (reviews.id x) (reviews.id old)
                               && Buyers_can_update_own_reviews uid x))
                      (reviews d)) = true).
    { apply existsb_exists. exists other. split; [| exact Hkey].
      apply filter_In. split; [exact Hother |].
      now rewrite (Hmiss other Hother Hne). }
    unfold reviews_unique. rewrite Hcol. cbn [negb].
    rewrite andb_false_r. reflexivity.
  - assert (Hfits : reviews.fits
              (reviews.with_id (reviews.id old)
                 (reviews.with_order_id None old)) = true).
    { apply rating_check_fits. exact Hchk. }
    eexists. split; [| split].
    + unfold UPDATE_reviews. rewrite Hfits. cbn [negb].
      rewrite (filter_key_using reviews.id
                 (Buyers_can_update_own_reviews uid) (reviews d) old
                 Hnd Hin), Hhit.
      apply statement_committed. repeat split.
      * exact Hhit.
      * exact Hchk.
      * unfold reviews_unique. apply andb_true_iff.
        split; apply negb_true_iff, existsb_false; intros x Hx;
          apply filter_In in Hx as [Hx Hm];
          apply negb_true_iff in Hm.
        -- apply N.eqb_neq. intros He.
           assert (x = old)
             by (now apply (key_injective reviews.id (reviews d))).
           subst x. rewrite N.eqb_refl, Hhit in Hm. discriminate.
        -- now apply same_key_no_order.
      * simpl. rewrite andb_true_r. unfold fk_upd.
        rewrite !N.eqb_refl. simpl.
        now destruct (reviews.order_id old).
    + simpl. apply (In_replace _ _ old); [exact Hin |].
      now rewrite N.eqb_refl, Hhit.
    + intros x Hx Hne. simpl. apply In_replace_miss; [exact Hx |].
      now apply Hmiss.
Qed.

Lemma review_update_uniqueness_witness :
  UPDATE_reviews
    (Sample.reviewed [Sample.review 50 (Some 30%N) 5;
                      Sample.review 51 (Some 31%N) 3]) 3
    51 (Sample.review 51 (Some 30%N) 3)
  = Rejected unique_violation.
Proof.
  destruct (review_update_uniqueness
              (Sample.reviewed [Sample.review 50 (Some 30%N) 5;
                                Sample.review 51 (Some 31%N) 3]) 3
              (Sample.review 51 (Some 31%N) 3)) as [H _].
  - repeat constructor; simpl; intuition discriminate.
  - simpl. auto.
  - reflexivity.
  - reflexivity.
  - apply (H (Sample.review 50 (Some 30%N) 5)
             (Sample.review 51 (Some 30%N) 3)).
    + simpl. auto.
    + discriminate.
    + reflexivity.
    + reflexivity.
    + reflexivity.
Defined.

Example reviews_without_order_coexist :
  UPDATE_reviews
    (Sample.reviewed [Sample.review 50 None 5; Sample.review 51 (Some 31%N) 3])
    3 51 (Sample.review 51 None 3)
  = Committed
      (Sample.reviewed [Sample.review 50 None 5; Sample.review 51 None 3]).
Proof. reflexivity. Qed.

(** ** Messages *)

(** X17.  A message is read by its sender and by its receiver and by nobody else,
    admins included; it can be sent only under the sender's own key, to an
    account that has a profile. *)
Theorem message_read_send_rule :
  forall d m uid,
    (forall r, In r (SELECT_messages d m uid) <->
               In r (messages m)
               /\ (messages.sender_id r = uid \/ messages.receiver_id r = uid))
    /\ (forall r,
          messages.sender_id r <> uid ->
          INSERT_messages d m uid r = Rejected_m insufficient_privilege)
    /\ (forall r m',
          INSERT_messages d m uid r = Committed_m m' ->
          messages.sender_id r = uid
          /\ In uid (map user_profiles.id (user_profiles d))
          /\ In (messages.receiver_id r)
                (map user_profiles.id (user_profiles d))
          /\ messages m' = r :: messages m).
Proof.
  intros d m uid. split; [| split].
  - intros r. unfold SELECT_messages, Users_can_read_their_messages.
    now rewrite filter_In, orb_true_iff, !N.eqb_eq.
  - intros r Hne. unfold INSERT_messages, statement_m,
      Users_can_send_messages. simpl.
    now rewrite (proj2 (N.eqb_neq _ _) Hne).
  - intros r m' Hex. committed_m Hex.
    unfold Users_can_send_messages in Hpolicy. apply N.eqb_eq in Hpolicy.
    repeat (apply andb_true_iff in Hfkeys as [Hfkeys ?]).
    apply references_spec in Hfkeys. apply references_spec in H1.
    repeat split; congruence.
Qed.

Lemma message_read_send_rule_witness :
  INSERT_messages Sample.db (mkmsg [] [] []) 3 (Sample.message 60 2 3)
  = Rejected_m insufficient_privilege.
Proof.
  destruct (message_read_send_rule Sample.db (mkmsg [] [] []) 3)
    as [_ [H _]].
  apply H. discriminate.
Defined.

(** X18.  Only the receiver reaches a message with an UPDATE: a statement of
    anybody else, the sender included, leaves the messages as they are, and
    a message stays with its receiver.  The policy does not single out the
    read flag: the receiver's UPDATE of the content is committed as well. *)
Theorem message_update_rule :
  forall d m uid,
    (forall t set,
        (forall x, In x (messages m) -> messages.id x = t ->
           messages.receiver_id x <> uid) ->
        UPDATE_messages d m uid t set = Committed_m m)
    /\ (forall t set m' x,
          UPDATE_messages d m uid t set = Committed_m m' ->
          messages.receiver_id x <> uid ->
          (In x (messages m') <-> In x (messages m)))
    /\ (forall old c,
          NoDup (map messages.id (messages m)) ->
          In old (messages m) ->
          messages.receiver_id old = uid ->
          exists m',
            UPDATE_messages d m uid (messages.id old)
              (messages.with_content c) = Committed_m m'
            /\ In (messages.with_content c old) (messages m')
            /\ ~ (c <> messages.content old /\ In old (messages m'))).
Proof.
  intros d m uid. split; [| split].
  - intros t set Hnone. unfold UPDATE_messages.
    destruct (filter _ (messages m)) as [| o l] eqn:E; [reflexivity |].
    apply target_stored in E as [Hin Hhit].
    apply andb_true_iff in Hhit as [Hid Hrecv].
    apply N.eqb_eq in Hid, Hrecv. now destruct (Hnone o Hin Hid).
  - intros t set m' x Hex Hother. unfold UPDATE_messages in Hex.
    targets Hex o E.
    { now injection Hex as <-. }
    pose proof (target_stored _ _ _ _ E) as [Hin Hhit].
    committed_m Hex. simpl.
    assert (Hmiss : N.eqb (messages.id x) t
              && Users_can_mark_their_received_messages_as_read uid x
              = false).
    { apply andb_false_iff. right. now apply N.eqb_neq. }
    rewrite in_map_iff. split.
    + intros [y [Hy Hyin]].
      destruct (N.eqb (messages.id y) t
                && Users_can_mark_their_received_messages_as_read uid y)
        eqn:Hh; [| now subst].
      exfalso. assert (Hy' : In y (o :: olds)).
      { rewrite <- E. apply filter_In. auto. }
      rewrite forallb_forall in Hpolicy. specialize (Hpolicy y Hy').
      apply N.eqb_eq in Hpolicy. rewrite Hy in Hpolicy. contradiction.
    + intros Hx. exists x. now rewrite Hmiss.
  - intros old c Hnd Hin Hrecv.
    assert (Hown : Users_can_mark_their_received_messages_as_read uid old
                   = true) by now apply N.eqb_eq.
    assert (Hh : N.eqb (messages.id old) (messages.id old)
                 && Users_can_mark_their_received_messages_as_read uid old
                 = true) by now rewrite N.eqb_refl, Hown.
    eexists. split; [| split].
    + unfold UPDATE_messages.
      rewrite (filter_key_using messages.id
                 (Users_can_mark_their_received_messages_as_read uid)
                 (messages m) old Hnd Hin), Hown.
      apply statement_m_committed. repeat split.
      * simpl. rewrite andb_true_r. exact Hown.
      * simpl. unfold fk_upd. rewrite !N.eqb_refl. simpl.
        destruct (messages.product_id old), (messages.order_id old); simpl;
          now rewrite ?N.eqb_refl.
    + simpl. apply in_map_iff. exists old.
      rewrite Hh. split; [| exact Hin]. now destruct old.
    + simpl. intros [Hne Hold].
      apply in_map_iff in Hold as [y [Hy Hyin]].
      destruct (N.eqb (messages.id y) (messages.id old)
                && Users_can_mark_their_received_messages_as_read uid y)
        eqn:Hy'.
      * apply Hne. rewrite <- Hy. reflexivity.
      * subst y. rewrite Hh in Hy'. discriminate.
Qed.

Lemma message_update_rule_witness :
  UPDATE_messages Sample.db
    (mkmsg [messages.mk 60 3 2 None None "Is it fresh?" None None] [] []) 3
    60 (messages.with_is_read (Some true))
  = Committed_m
      (mkmsg [messages.mk 60 3 2 None None "Is it fresh?" None None] [] []).
Proof.
  destruct (message_update_rule Sample.db
              (mkmsg [messages.mk 60 3 2 None None "Is it fresh?" None None]
                 [] []) 3) as [H _].
  apply H. intros x [<- | []] _. discriminate.
Defined.

(** ** Educational resources *)

(** X20.  The view counter.  The server does not accept the UPDATE of the
    page, and the page does not look at the result of its update: for a
    viewer without the role admin the stored count stays as it is while
    the count on the page goes up by one.  Clicking the expanded resource
    again collapses it and sends nothing. *)
Theorem view_count_rule :
  forall d m uid s k,
    (~ has_role d uid "admin" -> fst (handleViewResource d m uid s k) = m)
    /\ (expandedResource s = Some k ->
        handleViewResource d m uid s k = (m, mkpage (resources s) None))
    /\ (forall r,
          expandedResource s <> Some k ->
          find (fun x => N.eqb (educational_resources.id x) k) (resources s)
          = Some r ->
          In (educational_resources.with_view_count
                (plus_one (educational_resources.view_count r)) r)
             (resources (snd (handleViewResource d m uid s k)))
          /\ expandedResource (snd (handleViewResource d m uid s k))
             = Some k).
Proof.
  intros d m uid s k. split; [| split].
  - intros _. unfold handleViewResource.
    destruct (eq_uid (expandedResource s) k); [reflexivity |].
    destruct (find _ (resources s)) as [r |]; [| reflexivity].
    now rewrite UPDATE_educational_resources_raises.
  - intros He. unfold handleViewResource.
    now rewrite (proj2 (eq_uid_spec _ _) He).
  - intros r Hne Hfind. unfold handleViewResource.
    destruct (eq_uid (expandedResource s) k) eqn:E.
    { apply eq_uid_spec in E. contradiction. }
    rewrite Hfind. simpl. split; [| reflexivity].
    apply find_some in Hfind as [Hin Hid]. apply in_map_iff.
    exists r. now rewrite Hid.
Qed.

Lemma view_count_rule_witness :
  fst (handleViewResource Sample.db (mkmsg [] [Sample.resource 70 true] []) 3
         (mkpage [Sample.resource 70 true] None) 70)
  = mkmsg [] [Sample.resource 70 true] [].
Proof.
  apply (view_count_rule Sample.db).
  intros [p [Hp [Hi Hr]]]. simpl in Hp.
  repeat (destruct Hp as [<- | Hp]; [discriminate |]). contradiction.
Defined.

(** The count of a resource is not moved by an admin either. *)
Example view_count_of_admin :
  fst (handleViewResource Sample.db (mkmsg [] [Sample.resource 70 true] []) 1
         (mkpage [Sample.resource 70 true] None) 70)
  = mkmsg [] [Sample.resource 70 true] [].
Proof. reflexivity. Qed.

(** ** Category buttons of the Resources page *)

(** X21.  The buttons are "all" and the categories of the loaded resources, each
    once.  Whatever button is selected, the list under it is empty only
    when no resource was loaded at all: a category button never leads to
    the "No resources found in this category" notice. *)
Theorem category_buttons :
  forall rs,
    (forall c, In c (categories rs) <->
               c = "all"
               \/ exists r, In r rs /\ educational_resources.category r = c)
    /\ NoDup (tl (categories rs))
    /\ (forall c, In c (categories rs) ->
          (filteredResources c rs = [] <-> rs = [])).
Proof.
  intros rs.
  assert (Hcat : forall c, In c (categories rs) <->
            c = "all"
            \/ exists r, In r rs /\ educational_resources.category r = c).
  { intros c. unfold categories. simpl. rewrite In_distinct, in_map_iff.
    simpl. split.
    - intros [H | [[r [Hr Hin]] _]]; [now left | right; eauto].
    - intros [H | [r [Hin Hr]]]; [now left | right].
      split; [eauto | tauto]. }
  split; [exact Hcat | split].
  - simpl. apply NoDup_distinct.
  - intros c Hc. unfold filteredResources.
    destruct (String.eqb_spec c "all") as [_ | Hne]; [reflexivity |].
    apply Hcat in Hc as [Hc | [r [Hin Hr]]]; [contradiction |]. split.
    + intros Hnil. exfalso.
      assert (Hr' : In r (filter (fun x =>
                 String.eqb (educational_resources.category x) c) rs)).
      { apply filter_In. split; [exact Hin | now apply String.eqb_eq]. }
      now rewrite Hnil in Hr'.
    + intros ->. contradiction.
Qed.

Lemma category_buttons_witness :
  filteredResources "Production"
    [educational_resources.mk 70 "Packaging" "Packaging" "..." "..."
       "Production" None None None (Some true) (Some 4) None None]
  <> [].
Proof.
  destruct (category_buttons
              [educational_resources.mk 70 "Packaging" "Packaging" "..."
                 "..." "Production" None None None (Some true) (Some 4)
                 None None]) as [_ [_ H]].
  intros Hnil. apply H in Hnil; [discriminate |].
  simpl. auto.
Defined.

(** ** Bookmarks *)



(** ** What the pages show *)

(** X10.  The Products page lists nothing new: its query is aborted with
    "infinite recursion detected in policy" whoever is signed in, and
    [loadProducts] leaves the list as it is, empty on a page just opened,
    however many active products are in stock. *)
Theorem products_page_stays_empty :
  forall d uid state,
    loadProducts d uid state = state
    /\ loadProducts d uid [] = [].
Proof. intros d uid state. split; reflexivity. Qed.

(** X19.  The Resources page lists nothing new: the query of
    [loadResources] is aborted with "infinite recursion detected in
    policy" whoever is signed in, published resources or not, and the page
    just opened offers the button "all" over an empty list. *)
Theorem resources_page_stays_empty :
  forall d m uid state,
    SELECT_educational_resources d m uid = Raised invalid_object_definition
    /\ loadResources d m uid state = state
    /\ categories (loadResources d m uid []) = ["all"]
    /\ (forall c, filteredResources c (loadResources d m uid []) = []).
Proof.
  intros d m uid state. repeat split.
  intros c. unfold filteredResources. now destruct (String.eqb c "all").
Qed.

(** X23.  The Messages page lists nothing new: a session reads the messages
    it has sent or received, but the query of the page embeds the
    profiles of sender and receiver and is aborted with "infinite
    recursion detected in policy"; on a page just opened the lists of
    sent and received messages are empty and no message counts as
    unread. *)
Theorem messages_page_stays_empty :
  forall d m uid state,
    (forall r, In r (messages m) ->
       messages.sender_id r = uid \/ messages.receiver_id r = uid ->
       In r (SELECT_messages d m uid))
    /\ loadMessages d m uid state = state
    /\ sentMessages (loadMessages d m uid []) uid = []
    /\ receivedMessages (loadMessages d m uid []) uid = []
    /\ unreadCount (loadMessages d m uid []) uid = 0%nat.
Proof.
  intros d m uid state. split; [| repeat split].
  intros r Hr Hmine. apply filter_In. split; [exact Hr |].
  unfold Users_can_read_their_messages.
  apply orb_true_iff. destruct Hmine as [H | H]; [left | right];
    now apply N.eqb_eq.
Qed.

Lemma messages_page_stays_empty_witness :
  In (Sample.message 60 3 2)
     (SELECT_messages Sample.db (mkmsg [Sample.message 60 3 2] [] []) 3)
  /\ loadMessages Sample.db (mkmsg [Sample.message 60 3 2] [] []) 3 [] = [].
Proof.
  destruct (messages_page_stays_empty Sample.db
              (mkmsg [Sample.message 60 3 2] [] []) 3 [])
    as [Hread [Hload _]].
  split; [| exact Hload].
  apply Hread; [simpl; auto | left; reflexivity].
Defined.

(** X24.  The buyer dashboard lists no order: the query of [loadOrders] is
    aborted with "infinite recursion detected in policy", the list stays
    as it is, and on a dashboard just opened no order is pending. *)
Theorem buyer_dashboard_stays_empty :
  forall d uid state,
    loadOrders d uid state = state
    /\ pendingOrders (loadOrders d uid []) = 0%nat.
Proof. intros d uid state. split; reflexivity. Qed.

(** X25.  The farmer dashboard lists neither products nor orders: both
    queries of [loadData] are aborted with "infinite recursion detected in
    policy" and the lists stay as they are; on a dashboard just opened no
    product is reported low on stock and none is active. *)
Theorem farmer_dashboard_stays_empty :
  forall d uid,
    (forall state, loadData_products d uid state = state)
    /\ (forall state, loadData_orders d uid state = state)
    /\ lowStockProducts (loadData_products d uid []) = []
    /\ activeProducts (loadData_products d uid []) = 0%nat.
Proof. intros d uid. repeat split. Qed.

(** X26.  The admin dashboard shows 0 users, farmers, buyers, products and
    orders, whatever is stored and whoever is signed in: each of the five
    queries of [loadStats] is aborted with "infinite recursion detected in
    policy" and an absent count is shown as 0. *)
Theorem admin_dashboard_counts_zero :
  forall d uid, loadStats d uid = mkstats 0 0 0 0 0.
Proof. intros d uid. reflexivity. Qed.
